(** * Non-EU packager codes: the diff of two document collections and the
      [status] and [download] commands

    A shallow embedding of [scripts/packager-codes/non-eu/packager_codes.py].

    - Document records are the JSON objects the spider emits, restricted to
      the fields the script reads ([file_path], [url], [publication_date],
      all strings) plus the remaining fields, carried along unread.
    - A Python [dict] is an association list in insertion order with unique
      keys; a Python [set] of names is a [gset string] whose iteration order
      is a parameter [set_iter], constrained only to enumerate the set.
    - Exceptions are values of [exn]; code that can raise returns [result]. *)

From Stdlib Require Import String Ascii.
From stdpp Require Import base option list gmap strings pretty.

Local Open Scope string_scope.

(** ** Data model *)

Record DocumentRecord := mkDoc {
  file_path : string;
  url : string;
  publication_date : string;
  other_fields : list (string * string)
}.

(** The exceptions the script can raise. *)
Inductive exn :=
  | KeyError (key : string)
  | ClickException (message : string)
  | FileExistsError (filename : string)
  | FileNotFoundError (filename : string)
  | NotADirectoryError (filename : string)
  | IsADirectoryError (filename : string)
  | JSONDecodeError
  | URLError (address : string)
  | IncompleteRead (address : string)
  | ScrapeError (reason : string).

Inductive result (A : Type) :=
  | Ok (value : A)
  | Raise (e : exn).
Arguments Ok {A} value.
Arguments Raise {A} e.

#[export] Instance result_ret : MRet result := fun _ x => Ok x.
#[export] Instance result_bind : MBind result := fun _ _ f m =>
  match m with
  | Ok x => f x
  | Raise e => Raise e
  end.

(** ** Dictionaries keyed by [file_path] *)

(** [d[k] = v] on an insertion-ordered dict: an existing key keeps its
    position and gets the new value, a fresh key goes to the end. *)
Fixpoint dict_set (k : string) (v : DocumentRecord)
    (d : list (string * DocumentRecord)) : list (string * DocumentRecord) :=
  match d with
  | [] => [(k, v)]
  | (k', v') :: d' =>
      if decide (k = k') then (k', v) :: d' else (k', v') :: dict_set k v d'
  end.

Fixpoint dict_get (k : string) (d : list (string * DocumentRecord))
    : option DocumentRecord :=
  match d with
  | [] => None
  | (k', v') :: d' => if decide (k = k') then Some v' else dict_get k d'
  end.

(** [d[k]], raising [KeyError] on a missing key. *)
Definition getitem (d : list (string * DocumentRecord)) (k : string)
    : result DocumentRecord :=
  match dict_get k d with
  | Some v => Ok v
  | None => Raise (KeyError k)
  end.

Definition dict_keys (d : list (string * DocumentRecord)) : list string := d.*1.
Definition dict_values (d : list (string * DocumentRecord))
    : list DocumentRecord := d.*2.

(** [{d["file_path"]: d for d in docs}] *)
Definition docs_by_path (docs : list DocumentRecord)
    : list (string * DocumentRecord) :=
  foldl (fun acc d => dict_set (file_path d) d acc) [] docs.

(** Python's [a > b] on [str]: code point order, which on UTF-8 encoded
    strings is the byte-wise lexicographic order. *)
Definition str_gt (a b : string) : bool :=
  match String.compare a b with
  | Gt => true
  | _ => false
  end.

(** ** [get_diff] *)

Record Diff := mkDiff {
  new : list DocumentRecord;
  removed : list DocumentRecord;
  updated : list DocumentRecord
}.

(** The comprehension of lines 51-55: every item of [local_docs], in dict
    order, is looked up in [scraped_docs] with a subscript. *)
Fixpoint updated_names (scraped_docs items : list (string * DocumentRecord))
    : result (list string) :=
  match items with
  | [] => Ok []
  | (doc_name, doc) :: rest =>
      s ← getitem scraped_docs doc_name;
      names ← updated_names scraped_docs rest;
      Ok (if str_gt (publication_date s) (publication_date doc)
          then doc_name :: names else names)
  end.

Section GetDiff.

(** The order in which Python iterates over a [set]. *)
Variable set_iter : gset string → list string.
Hypothesis set_iter_perm : ∀ s, set_iter s ≡ₚ elements s.

Definition get_diff (scraped local : list DocumentRecord) : result Diff :=
  let scraped_docs := docs_by_path scraped in
  let local_docs := docs_by_path local in
  let new_names : gset string :=
    list_to_set (dict_keys scraped_docs) ∖ list_to_set (dict_keys local_docs) in
  let removed_names : gset string :=
    list_to_set (dict_keys local_docs) ∖ list_to_set (dict_keys scraped_docs) in
  names ← updated_names scraped_docs local_docs;
  new_docs ← mapM (getitem scraped_docs) (set_iter new_names);
  removed_docs ← mapM (getitem local_docs) (set_iter removed_names);
  updated_docs ← mapM (getitem scraped_docs) names;
  Ok {| new := new_docs; removed := removed_docs; updated := updated_docs |}.

End GetDiff.

(** ** Paths

    A path is the tuple of its [pathlib] parts: [Path("/a/b").parts] is
    [("/", "a", "b")] and [Path(".").parts] is [()]. Empty and ["."]
    components are dropped, [".."] is kept. The file system below is keyed
    by these parts: symbolic links and [".."] are not interpreted. *)

Fixpoint split_slash (s : string) : list string :=
  match s with
  | EmptyString => [""]
  | String c s' =>
      if Ascii.eqb c "/" then "" :: split_slash s'
      else match split_slash s' with
           | w :: ws => String c w :: ws
           | [] => [String c ""]
           end
  end.

(** The root of a POSIX path: exactly two leading slashes are kept apart. *)
Definition path_root (s : string) : list string :=
  match s with
  | String "/" (String "/" (String "/" _)) => ["/"]
  | String "/" (String "/" _) => ["//"]
  | String "/" _ => ["/"]
  | _ => []
  end.

Definition is_part (w : string) : bool :=
  negb (String.eqb w "") && negb (String.eqb w ".").

Definition Path (s : string) : list string :=
  path_root s ++ filter (fun w => is_part w = true) (split_slash s).

(** [p / s]: an anchored right operand replaces the left one. *)
Definition path_join (p : list string) (s : string) : list string :=
  match path_root s with
  | [] => p ++ Path s
  | _ => Path s
  end.

Definition is_root (p : list string) : bool :=
  match p with
  | [] => true
  | [r] => String.eqb r "/" || String.eqb r "//"
  | _ => false
  end.

Definition path_parent (p : list string) : list string :=
  if is_root p then p else removelast p.

Fixpoint join_slash (ws : list string) : string :=
  match ws with
  | [] => ""
  | [w] => w
  | w :: ws' => w ++ "/" ++ join_slash ws'
  end.

(** [str(p)] *)
Definition path_str (p : list string) : string :=
  match p with
  | [] => "."
  | r :: rest =>
      if String.eqb r "/" || String.eqb r "//" then r ++ join_slash rest
      else join_slash p
  end.

(** ** The world the commands run in *)

Inductive node :=
  | Dir
  | File (content : string).

Inductive open_mode := ReadText | WriteText | WriteBinary.

(** What the commands do to the outside, in the order they do it. *)
Inductive event :=
  | EvScrape
  | EvUrlopen (address : string)
  | EvOpen (p : list string) (mode : open_mode)
  | EvStdout (text : string).

Record World := mkWorld {
  files : gmap (list string) node;
  events : list event
}.

Definition node_at (fs : gmap (list string) node) (p : list string)
    : option node :=
  if is_root p then Some Dir else fs !! p.

(** What a GET on an address yields: no connection, a connection that
    breaks while the body is read, or the body. *)
Inductive response :=
  | Unreachable
  | Broken
  | Body (content : string).

(** The manifest, a JSON object whose three keys may each be absent. *)
Record Meta := mkMeta {
  meta_description : option string;
  meta_updated : option string;
  meta_document_info : option (list DocumentRecord)
}.

Inductive output_format := Summary | Json.

(** The collaborators of the script: the spider subprocess with its parsed
    output, the remote server, the clock, the [json] and [pprint]
    libraries. [json_load] is [None] on text that does not decode
    ([json.JSONDecodeError]); decoded values that are not objects of the
    shape of [Meta] are outside the model. The spider is taken not to touch
    the files of the world. *)
Record Env := mkEnv {
  spider : result (list DocumentRecord);
  http : string → response;
  now_isoformat : string;
  json_dump : Meta → string;
  json_load : string → option Meta;
  pformat : Diff → string
}.

(** Commands: state passing with exceptions; a raise keeps the state
    reached so far. *)
Definition M (A : Type) : Type := World → result A * World.

#[export] Instance M_ret : MRet M := fun _ x w => (Ok x, w).
#[export] Instance M_bind : MBind M := fun _ _ f m w =>
  match m w with
  | (Ok x, w') => f x w'
  | (Raise e, w') => (Raise e, w')
  end.

Definition raise {A} (e : exn) : M A := fun w => (Raise e, w).
Definition lift {A} (r : result A) : M A := fun w => (r, w).
Definition log (ev : event) : M unit :=
  fun w => (Ok tt, {| files := files w; events := events w ++ [ev] |}).
Definition get_files : M (gmap (list string) node) :=
  fun w => (Ok (files w), w).
Definition set_node (p : list string) (n : node) : M unit :=
  fun w => (Ok tt, {| files := <[p := n]> (files w); events := events w |}).

(** [p.exists()] *)
Definition path_exists (p : list string) : M bool :=
  fs ← get_files;
  mret (bool_decide (is_Some (node_at fs p))).

(** [os.mkdir(p)] *)
Definition os_mkdir (p : list string) : M unit :=
  fs ← get_files;
  match node_at fs p with
  | Some _ => raise (FileExistsError (path_str p))
  | None =>
      match node_at fs (path_parent p) with
      | Some Dir => set_node p Dir
      | Some (File _) => raise (NotADirectoryError (path_str p))
      | None => raise (FileNotFoundError (path_str p))
      end
  end.

(** [p.mkdir(parents=False, exist_ok=True)] *)
Definition mkdir_exist_ok (p : list string) : M unit :=
  fun w =>
    match os_mkdir p w with
    | (Raise (FileNotFoundError f), w') => (Raise (FileNotFoundError f), w')
    | (Raise e, w') =>
        match node_at (files w') p with
        | Some Dir => (Ok tt, w')
        | _ => (Raise e, w')
        end
    | r => r
    end.

(** [q.mkdir(parents=True, exist_ok=True)] for [q] the first [n] parts of
    [p]: [pathlib] recurses on [q.parent], the first [n - 1] parts. *)
Fixpoint mkdir_parents (n : nat) (p : list string) : M unit :=
  fun w =>
    let q := take n p in
    match os_mkdir q w with
    | (Raise (FileNotFoundError f), w') =>
        match n with
        | 0 => (Raise (FileNotFoundError f), w')
        | S n' => (mkdir_parents n' p;; mkdir_exist_ok q) w'
        end
    | (Raise e, w') =>
        match node_at (files w') q with
        | Some Dir => (Ok tt, w')
        | _ => (Raise e, w')
        end
    | r => r
    end.

(** [p.open("w")] and [p.open("wb")]: the file is created or truncated.
    An [EvOpen] event records a file that was opened. *)
Definition open_write (p : list string) (mode : open_mode) : M unit :=
  fs ← get_files;
  match node_at fs p with
  | Some Dir => raise (IsADirectoryError (path_str p))
  | _ =>
      match node_at fs (path_parent p) with
      | Some Dir => log (EvOpen p mode);; set_node p (File "")
      | Some (File _) => raise (NotADirectoryError (path_str p))
      | None => raise (FileNotFoundError (path_str p))
      end
  end.

(** [p.open("r")] followed by reading the whole file. *)
Definition open_read (p : list string) : M string :=
  fs ← get_files;
  match node_at fs p with
  | Some (File content) => log (EvOpen p ReadText);; mret content
  | Some Dir => raise (IsADirectoryError (path_str p))
  | None => raise (FileNotFoundError (path_str p))
  end.

Definition echo (text : string) : M unit := log (EvStdout text).

Section Commands.

Variable set_iter : gset string → list string.
Variable env : Env.

(** The messages of [logger.info] go to a root logger without handlers
    and are not modelled. *)
Definition scrape_document_info : M (list DocumentRecord) :=
  log EvScrape;;
  lift (spider env).

(** One turn of the loop of [download_documents]. *)
Definition download_document (dest_dir : list string)
    (doc_info : DocumentRecord) : M unit :=
  let dest_path := path_join dest_dir (file_path doc_info) in
  let parent := path_parent dest_path in
  mkdir_parents (length parent) parent;;
  log (EvUrlopen (url doc_info));;
  match http env (url doc_info) with
  | Unreachable => raise (URLError (url doc_info))
  | Broken =>
      open_write dest_path WriteBinary;;
      raise (IncompleteRead (url doc_info))
  | Body content =>
      open_write dest_path WriteBinary;;
      set_node dest_path (File content)
  end.

Fixpoint download_documents (document_info : list DocumentRecord)
    (dest_dir : list string) : M unit :=
  match document_info with
  | [] => mret tt
  | doc_info :: rest =>
      download_document dest_dir doc_info;;
      download_documents rest dest_dir
  end.

(** Lines 86-92 of [status]. *)
Definition load_local_meta (meta_path : list string) : M Meta :=
  found ← path_exists meta_path;
  if negb found then
    mret {| meta_description := None; meta_updated := None;
            meta_document_info := Some [] |}
  else
    content ← open_read meta_path;
    match json_load env content with
    | Some local_meta => mret local_meta
    | None => raise JSONDecodeError
    end.

Definition newline : string := String (ascii_of_nat 10) "".

Definition summary_text (local_meta : Meta) (doc_diff : Diff) : string :=
  "Last updated: " ++ default "never" (meta_updated local_meta) ++ newline
  ++ "New: " ++ pretty (length (new doc_diff))
  ++ ", Removed: " ++ pretty (length (removed doc_diff))
  ++ ", Updated: " ++ pretty (length (updated doc_diff)).

Definition status (data_dir : string) (fmt : output_format) : M unit :=
  let data_dir := Path data_dir in
  let meta_path := path_join data_dir "meta.json" in
  local_meta ← load_local_meta meta_path;
  scraped_info ← scrape_document_info;
  local_info ← match meta_document_info local_meta with
               | Some docs => mret docs
               | None => raise (KeyError "document_info")
               end;
  doc_diff ← lift (get_diff set_iter scraped_info local_info);
  match fmt with
  | Json => echo (pformat env doc_diff)
  | Summary => echo (summary_text local_meta doc_diff)
  end.

Definition manifest (document_info : list DocumentRecord) : Meta :=
  {| meta_description := Some "OpenFoodFacts non-EU packager codes";
     meta_updated := Some (now_isoformat env);
     meta_document_info := Some document_info |}.

Definition download (dest_dir : string) : M unit :=
  let dest_dir := Path dest_dir in
  found ← path_exists dest_dir;
  if (found : bool) then
    raise (ClickException
      ("destination directory '" ++ path_str dest_dir ++ "' already exists"))
  else
    os_mkdir dest_dir;;
    document_info ← scrape_document_info;
    download_documents document_info dest_dir;;
    let meta_path := path_join dest_dir "meta.json" in
    open_write meta_path WriteText;;
    set_node meta_path (File (json_dump env (manifest document_info))).

End Commands.

(** * Vocabulary of the properties *)

Local Open Scope list_scope.

(** Keys are unique and every record sits under its own [file_path]. *)
Definition dict_wf (d : list (string * DocumentRecord)) : Prop :=
  NoDup (dict_keys d) ∧ Forall (fun kv => kv.1 = file_path kv.2) d.

(** The loop of the dict comprehension, started from any dict. *)
Definition docs_into (d : list (string * DocumentRecord))
    (l : list DocumentRecord) : list (string * DocumentRecord) :=
  foldl (fun acc x => dict_set (file_path x) x acc) d l.

(** What [updated] holds when no subscript fails: for each local item in
    dict order, the scraped record of the same name if it is newer. *)
Definition updated_docs (scraped_docs local_docs : list (string * DocumentRecord))
    : list DocumentRecord :=
  omap (fun item : string * DocumentRecord =>
          match dict_get item.1 scraped_docs with
          | Some s =>
              if str_gt (publication_date s) (publication_date item.2)
              then Some s else None
          | None => None
          end) local_docs.

(** A command is [stable] for a relation between worlds when every run of
    it, returning or raising, relates the world before to the world after. *)
Definition stable {A} (R : relation World) (m : M A) : Prop :=
  ∀ w, R w (m w).2.

(** Events that open a file for writing. *)
Definition opens_for_writing (ev : event) : Prop :=
  match ev with
  | EvOpen _ WriteText | EvOpen _ WriteBinary => True
  | _ => False
  end.

(** The files are the same and no file was opened for writing. *)
Definition read_only_step (w w' : World) : Prop :=
  files w' = files w
  ∧ ∃ evs, events w' = events w ++ evs ∧ Forall (fun ev => ¬ opens_for_writing ev) evs.

(** Every entry of the file system is still there, unchanged. *)
Definition extends (w w' : World) : Prop :=
  ∀ p n, files w !! p = Some n → files w' !! p = Some n.

(** The same, but for the entry at [q]. *)
Definition keeps_except (q : list string) (w w' : World) : Prop :=
  ∀ p n, p ≠ q → files w !! p = Some n → files w' !! p = Some n.

(** No file was opened in text mode for writing, as [json.dump] needs. *)
Definition no_text_write (w w' : World) : Prop :=
  ∃ evs, events w' = events w ++ evs
    ∧ Forall (fun ev => ∀ p, ev ≠ EvOpen p WriteText) evs.


(** The exceptions of the file system calls. *)
Definition os_error (e : exn) : Prop :=
  match e with
  | FileExistsError _ | FileNotFoundError _
  | NotADirectoryError _ | IsADirectoryError _ => True
  | _ => False
  end.

(** Nothing was added to the events. *)
Definition same_events (w w' : World) : Prop := events w' = events w.

(** The entry at [p] is as it was. *)
Definition keeps_at (p : list string) (w w' : World) : Prop :=
  files w' !! p = files w !! p.

(** Every directory is still a directory. *)
Definition keeps_dirs (w w' : World) : Prop :=
  ∀ p, node_at (files w) p = Some Dir → node_at (files w') p = Some Dir.

(** Nothing was printed. *)
Definition silent (w w' : World) : Prop :=
  ∃ evs, events w' = events w ++ evs
    ∧ Forall (fun ev => ∀ text, ev ≠ EvStdout text) evs.

(** The events of one turn of the loop of [download_documents] that
    returns: the request, then the file opened for the body. *)
Definition doc_events (dest_dir : list string) (d : DocumentRecord)
    : list event :=
  [EvUrlopen (url d); EvOpen (path_join dest_dir (file_path d)) WriteBinary].

(** A command that prints once, as the last thing it does, when it
    returns, and prints nothing when it raises. *)
Definition prints_last (m : M unit) : Prop :=
  ∀ w,
    match m w with
    | (Ok _, w') =>
        ∃ evs text, events w' = events w ++ evs ++ [EvStdout text]
          ∧ Forall (fun ev => ∀ t, ev ≠ EvStdout t) evs
    | (Raise _, w') => silent w w'
    end.

(** * Data for the examples *)

Definition doc_a_old : DocumentRecord :=
  {| file_path := "a.pdf"; url := "https://example.org/a.pdf";
     publication_date := "2020-01-01"; other_fields := [] |}.
Definition doc_a_new : DocumentRecord :=
  {| file_path := "a.pdf"; url := "https://example.org/a.pdf";
     publication_date := "2020-06-01"; other_fields := [] |}.
Definition doc_b : DocumentRecord :=
  {| file_path := "b.pdf"; url := "https://example.org/b.pdf";
     publication_date := "2021-01-01"; other_fields := [] |}.

Definition dq : string := String (ascii_of_nat 34) "".

(** [json.dumps] for the examples, without escaping. *)
Definition sample_json_str (s : string) : string := (dq ++ s ++ dq)%string.

Definition sample_json_doc (d : DocumentRecord) : string :=
  ("{" ++ sample_json_str "file_path" ++ ": " ++ sample_json_str (file_path d)
   ++ ", " ++ sample_json_str "url" ++ ": " ++ sample_json_str (url d)
   ++ ", " ++ sample_json_str "publication_date" ++ ": "
   ++ sample_json_str (publication_date d) ++ "}")%string.

Fixpoint sample_json_items (items : list string) : string :=
  match items with
  | [] => ""
  | [item] => item
  | item :: rest => (item ++ ", " ++ sample_json_items rest)%string
  end.

Definition sample_json_dump (m : Meta) : string :=
  ("{" ++ sample_json_str "description" ++ ": "
   ++ sample_json_str (default "" (meta_description m))
   ++ ", " ++ sample_json_str "updated" ++ ": "
   ++ sample_json_str (default "" (meta_updated m))
   ++ ", " ++ sample_json_str "document_info" ++ ": ["
   ++ sample_json_items (sample_json_doc <$> default [] (meta_document_info m))
   ++ "]}")%string.

Definition sample_meta : Meta :=
  {| meta_description := Some "OpenFoodFacts non-EU packager codes";
     meta_updated := Some "2020-02-01T10:00:00";
     meta_document_info := Some [doc_a_old] |}.

(** Decodes the one manifest of the examples and nothing else. *)
Definition sample_json_load (s : string) : option Meta :=
  if String.eqb s (sample_json_dump sample_meta) then Some sample_meta else None.

(** A server where [b.pdf] cannot be reached. *)
Definition sample_http (address : string) : response :=
  if String.eqb address "https://example.org/b.pdf" then Unreachable
  else Body ("content of " ++ address).

Definition sample_env (docs : list DocumentRecord) : Env :=
  {| spider := Ok docs;
     http := sample_http;
     now_isoformat := "2021-03-01T12:00:00";
     json_dump := sample_json_dump;
     json_load := sample_json_load;
     pformat := fun _ => "" |}.

Definition doc_meta : DocumentRecord :=
  {| file_path := "meta.json"; url := "https://example.org/meta.json";
     publication_date := "2021-01-01"; other_fields := [] |}.

Definition empty_world : World := {| files := ∅; events := [] |}.

Definition data_world (content : string) : World :=
  {| files := <[ ["data"; "meta.json"] := File content ]> {[ ["data"] := Dir ]};
     events := [] |}.

Definition doc_b_older : DocumentRecord :=
  {| file_path := "b.pdf"; url := "https://example.org/b.pdf";
     publication_date := "2019-05-05"; other_fields := [] |}.

(** The manifest that [download] writes in the examples. *)
Definition sample_manifest (docs : list DocumentRecord) : Meta :=
  {| meta_description := Some "OpenFoodFacts non-EU packager codes";
     meta_updated := Some "2021-03-01T12:00:00";
     meta_document_info := Some docs |}.

(** As [sample_env], with a [json.load] that decodes the manifest written
    for [docs]. *)
Definition reading_env (docs : list DocumentRecord) : Env :=
  {| spider := Ok docs;
     http := sample_http;
     now_isoformat := "2021-03-01T12:00:00";
     json_dump := sample_json_dump;
     json_load := fun s =>
       if String.eqb s (sample_json_dump (sample_manifest docs))
       then Some (sample_manifest docs) else None;
     pformat := fun _ => "" |}.

(** A [json.load] that decodes every file to an object without keys. *)
Definition bare_env (docs : list DocumentRecord) : Env :=
  {| spider := Ok docs;
     http := sample_http;
     now_isoformat := "2021-03-01T12:00:00";
     json_dump := sample_json_dump;
     json_load := fun _ =>
       Some {| meta_description := None; meta_updated := None;
               meta_document_info := None |};
     pformat := fun _ => "" |}.

(** A spider that cannot be started. *)
Definition failing_env : Env :=
  {| spider := Raise (ScrapeError "No module named 'scrapy'");
     http := sample_http;
     now_isoformat := "2021-03-01T12:00:00";
     json_dump := sample_json_dump;
     json_load := sample_json_load;
     pformat := fun _ => "" |}.

Definition dest_world : World :=
  {| files := {[ ["dest"] := Dir ]}; events := [] |}.

(** * Properties *)

(** ** Dictionaries *)

Section DictFacts.

Implicit Types (d : list (string * DocumentRecord)) (k : string).
Implicit Types (v r : DocumentRecord) (l : list DocumentRecord).


Lemma dict_get_None k d : dict_get k d = None ↔ k ∉ dict_keys d.
Proof.
  unfold dict_keys. induction d as [|[k0 v0] d IH]; simpl.
  - split; [intros _; apply not_elem_of_nil | done].
  - rewrite not_elem_of_cons. case_decide; [|tauto].
    split; [done | intros [? _]; done].
Qed.

Lemma dict_get_is_Some k d : is_Some (dict_get k d) ↔ k ∈ dict_keys d.
Proof.
  rewrite <- not_eq_None_Some, dict_get_None.
  split; [apply dec_stable | tauto].
Qed.

Lemma dict_get_Some_elem k v d : dict_get k d = Some v → (k, v) ∈ d.
Proof.
  induction d as [|[k0 v0] d IH]; simpl; [done|].
  case_decide as Hk.
  - intros [= ->]. subst. by left.
  - intros H. right. by apply IH.
Qed.

Lemma dict_get_elem k v d :
  NoDup (dict_keys d) → (k, v) ∈ d → dict_get k d = Some v.
Proof.
  unfold dict_keys. induction d as [|[k0 v0] d IH]; simpl.
  - intros _ H. by apply elem_of_nil in H.
  - rewrite NoDup_cons, elem_of_cons. intros [Hk0 Hnd] [Heq|Hin].
    + injection Heq as -> ->. by rewrite decide_True.
    + rewrite decide_False; [by apply IH|].
      intros ->. apply Hk0. apply (list_elem_of_fmap_2 fst) in Hin. done.
Qed.

Lemma dict_keys_set k v d :
  dict_keys (dict_set k v d)
  = if decide (k ∈ dict_keys d) then dict_keys d else dict_keys d ++ [k].
Proof.
  unfold dict_keys. induction d as [|[k0 v0] d IH]; csimpl.
  - done.
  - destruct (decide (k = k0)) as [->|Hne]; csimpl.
    + rewrite decide_True; [done | apply elem_of_cons; by left].
    + rewrite IH. destruct (decide (k ∈ d.*1)) as [Hin|Hin].
      * rewrite decide_True; [done | apply elem_of_cons; by right].
      * rewrite decide_False; [done|].
        rewrite elem_of_cons. intros [?|?]; done.
Qed.

Lemma dict_set_wf d r : dict_wf d → dict_wf (dict_set (file_path r) r d).
Proof.
  intros [Hnd Hall]. split.
  - rewrite dict_keys_set. case_decide; [done|].
    apply NoDup_app. split_and!; [done | | apply NoDup_singleton].
    intros x Hx Hx'. apply list_elem_of_singleton in Hx'. by subst.
  - clear Hnd. induction d as [|[k0 v0] d IH]; simpl.
    + by repeat constructor.
    + apply Forall_cons in Hall as [Hk Hall]. simpl in Hk.
      case_decide; constructor; simpl; auto; congruence.
Qed.

Lemma docs_into_wf d l : dict_wf d → dict_wf (docs_into d l).
Proof.
  revert d. induction l as [|r l IH]; intros d Hd; simpl; [done|].
  apply IH. by apply dict_set_wf.
Qed.

Lemma docs_by_path_wf l : dict_wf (docs_by_path l).
Proof. apply (docs_into_wf [] l). split; constructor. Qed.


Lemma docs_into_keys k d l :
  k ∈ dict_keys (docs_into d l) ↔ k ∈ dict_keys d ∨ k ∈ file_path <$> l.
Proof.
  revert d. induction l as [|r l IH]; intros d; simpl.
  - rewrite elem_of_nil. tauto.
  - rewrite IH, dict_keys_set, elem_of_cons.
    destruct (decide (file_path r ∈ dict_keys d)) as [Hin|Hin].
    + split; [tauto|]. intros [?|[->|?]]; auto.
    + rewrite elem_of_app, list_elem_of_singleton.
      split; [intros [[?|?]|?] | intros [?|[?|?]]]; auto.
Qed.

Lemma docs_by_path_keys k l :
  k ∈ dict_keys (docs_by_path l) ↔ k ∈ file_path <$> l.
Proof.
  unfold docs_by_path. rewrite (docs_into_keys k [] l).
  unfold dict_keys. simpl. rewrite elem_of_nil. tauto.
Qed.

Lemma dict_set_fresh k v d : k ∉ dict_keys d → dict_set k v d = d ++ [(k, v)].
Proof.
  unfold dict_keys. induction d as [|[k0 v0] d IH]; simpl; [done|].
  rewrite not_elem_of_cons. intros [Hne Hk].
  rewrite decide_False by done. by rewrite IH.
Qed.

(** Without repeated keys the comprehension keeps the input as it is. *)
Lemma docs_into_fresh d l :
  NoDup (dict_keys d ++ (file_path <$> l)) →
  docs_into d l = d ++ ((fun x => (file_path x, x)) <$> l).
Proof.
  revert d. induction l as [|r l IH]; intros d Hnd; simpl.
  - by rewrite app_nil_r.
  - assert (Hr : file_path r ∉ dict_keys d).
    { apply NoDup_app in Hnd as (_ & Hd & _). intros Hin.
      apply (Hd _ Hin). apply elem_of_cons. by left. }
    rewrite dict_set_fresh by done. rewrite IH.
    + by rewrite <- app_assoc.
    + unfold dict_keys in *. rewrite fmap_app. simpl.
      rewrite <- app_assoc. done.
Qed.

Lemma docs_by_path_unique l :
  NoDup (file_path <$> l) →
  docs_by_path l = (fun x => (file_path x, x)) <$> l.
Proof. intros Hnd. by apply (docs_into_fresh [] l). Qed.

Lemma dict_wf_values d :
  dict_wf d →
  file_path <$> dict_values d = dict_keys d
  ∧ (fun x => (file_path x, x)) <$> dict_values d = d.
Proof.
  intros [_ Hall]. unfold dict_values, dict_keys.
  induction Hall as [|[k v] d Hk _ [IH1 IH2]]; simpl in *; [done|].
  subst k. split; f_equal; [exact IH1 | exact IH2].
Qed.



Lemma docs_unique_values l :
  NoDup (file_path <$> l) → dict_values (docs_by_path l) = l.
Proof.
  intros Hnd. rewrite docs_by_path_unique by done.
  unfold dict_values. rewrite <- list_fmap_compose.
  apply list_fmap_id.
Qed.

End DictFacts.

(** ** [get_diff] *)

Lemma str_gt_irrefl a : str_gt a a = false.
Proof.
  unfold str_gt. pose proof (String.compare_antisym a a) as H.
  destruct (String.compare a a); simpl in H; congruence.
Qed.

Lemma str_gt_compare a b : str_gt a b = true ↔ String.compare a b = Gt.
Proof. unfold str_gt. destruct (String.compare a b); split; congruence. Qed.

Section SubscriptFacts.

Implicit Types (d items : list (string * DocumentRecord)).
Implicit Types (k : string) (ks : list string).

Lemma getitem_Some d k v : dict_get k d = Some v → getitem d k = Ok v.
Proof. unfold getitem. by intros ->. Qed.

Lemma getitem_None d k : dict_get k d = None → getitem d k = Raise (KeyError k).
Proof. unfold getitem. by intros ->. Qed.

Lemma mapM_getitem d ks :
  (∀ k, k ∈ ks → k ∈ dict_keys d) →
  mapM (getitem d) ks = Ok (omap (fun k => dict_get k d) ks).
Proof.
  induction ks as [|k ks IH]; intros Hks; [done|].
  destruct (proj2 (dict_get_is_Some k d)) as [v Hv].
  { apply Hks. by left. }
  cbn [mapM omap list_omap]. rewrite (getitem_Some d k v Hv), Hv.
  cbn [mbind result_bind].
  rewrite IH; [done|]. intros k' Hk'. apply Hks. by right.
Qed.

Lemma omap_get_filter (P : string → Prop) `{!∀ k, Decision (P k)} d items :
  (∀ k v, (k, v) ∈ items → dict_get k d = Some v ∧ k = file_path v) →
  omap (fun k => dict_get k d) (filter P items.*1)
  = filter (fun r => P (file_path r)) items.*2.
Proof.
  induction items as [|[k v] items IH]; intros Hit; [done|].
  destruct (Hit k v) as [Hget ->]; [by left|].
  csimpl. rewrite !filter_cons. simpl.
  assert (IH' := IH (fun k' v' H' => Hit k' v' (list_elem_of_further _ _ _ H'))).
  destruct (decide (P (file_path v))); [|done].
  csimpl. rewrite Hget. by f_equal.
Qed.

Lemma dict_wf_items d k v :
  dict_wf d → (k, v) ∈ d → dict_get k d = Some v ∧ k = file_path v.
Proof.
  intros [Hnd Hall] Hin. split; [by apply dict_get_elem|].
  rewrite Forall_forall in Hall. apply (Hall _ Hin).
Qed.

Lemma updated_names_Ok d items :
  (∀ k, k ∈ dict_keys items → k ∈ dict_keys d) →
  ∃ names, updated_names d items = Ok names
    ∧ (∀ k, k ∈ names → k ∈ dict_keys d)
    ∧ omap (fun k => dict_get k d) names = updated_docs d items.
Proof.
  unfold dict_keys.
  induction items as [|[k doc] items IH]; intros Hks.
  - exists []. split_and!; [done | | done]. intros k H. by apply elem_of_nil in H.
  - destruct IH as (names & Hn & Hin & Hdocs).
    { intros k' Hk'. apply Hks. by right. }
    destruct (proj2 (dict_get_is_Some k d)) as [s Hs].
    { apply Hks. by left. }
    cbn [updated_names]. rewrite (getitem_Some d k s Hs).
    cbn [mbind result_bind]. rewrite Hn. cbn [mbind result_bind].
    unfold updated_docs in *. cbn [omap list_omap fst snd]. rewrite Hs.
    destruct (str_gt _ _); eexists; split_and!; try done.
    + intros k' [->|Hk']%elem_of_cons; [|by apply Hin].
      apply dict_get_is_Some. by exists s.
    + cbn [omap list_omap]. rewrite Hs. by f_equal.
Qed.

(** The first item of [items], in dict order, whose name is not a key of
    [d] makes the comprehension raise. *)
Lemma updated_names_Raise d items :
  ¬ (∀ k, k ∈ dict_keys items → k ∈ dict_keys d) →
  ∃ k, updated_names d items = Raise (KeyError k)
    ∧ k ∈ dict_keys items ∧ k ∉ dict_keys d.
Proof.
  unfold dict_keys.
  induction items as [|[k doc] items IH]; intros Hks.
  - exfalso. apply Hks. intros k H. by apply elem_of_nil in H.
  - cbn [updated_names].
    destruct (dict_get k d) as [s|] eqn:Hs;
      [rewrite (getitem_Some d k s Hs) | rewrite (getitem_None d k Hs)].
    + destruct IH as (k' & Hr & Hin & Hnin).
      { intros Hall. apply Hks. intros k' [->|Hk']%elem_of_cons; [|by apply Hall].
        apply dict_get_is_Some. by exists s. }
      exists k'. cbn [mbind result_bind]. rewrite Hr. split_and!; [done | | done].
      csimpl. by right.
    + exists k. split_and!; [done | csimpl; by left |].
      by apply dict_get_None.
Qed.

Lemma updated_docs_self d : dict_wf d → updated_docs d d = [].
Proof.
  intros Hd.
  enough (H : ∀ items, (∀ kv, kv ∈ items → kv ∈ d) → updated_docs d items = [])
    by by apply H.
  unfold updated_docs.
  induction items as [|[k v] items IH]; intros Hsub; [done|].
  cbn [omap list_omap fst snd].
  destruct (dict_wf_items d k v Hd) as [-> _]; [apply Hsub; by left|].
  rewrite str_gt_irrefl. apply IH. intros kv Hkv. apply Hsub. by right.
Qed.

End SubscriptFacts.

Lemma docs_into_head k v d l :
  ∃ v' d', docs_into ((k, v) :: d) l = (k, v') :: d'.
Proof.
  revert v d. induction l as [|r l IH]; intros v d; simpl; [by eauto|].
  case_decide; apply IH.
Qed.

Lemma filter_not_in_nil (l : list DocumentRecord) :
  filter (fun r => file_path r ∉ dict_keys []) l = l.
Proof.
  induction l as [|r l IH]; [done|].
  rewrite filter_cons, decide_True, IH; [done|]. apply not_elem_of_nil.
Qed.

Section GetDiffFacts.

Variable set_iter : gset string → list string.
Hypothesis set_iter_perm : ∀ s, set_iter s ≡ₚ elements s.

Implicit Types (scraped local A : list DocumentRecord).

Lemma set_iter_empty : set_iter ∅ = [].
Proof.
  apply Permutation_nil_r. rewrite set_iter_perm. by rewrite elements_empty.
Qed.

Lemma set_iter_elem (s : gset string) k : k ∈ set_iter s ↔ k ∈ s.
Proof. rewrite set_iter_perm. apply elem_of_elements. Qed.

Lemma set_iter_difference (K1 K2 : list string) :
  NoDup K1 →
  set_iter (list_to_set K1 ∖ list_to_set K2) ≡ₚ filter (fun k => k ∉ K2) K1.
Proof.
  intros Hnd. rewrite set_iter_perm.
  replace (list_to_set K1 ∖ list_to_set K2 : gset string)
    with (list_to_set (filter (fun k => k ∉ K2) K1) : gset string).
  - apply elements_list_to_set. by apply NoDup_filter.
  - apply set_eq. intros k.
    rewrite elem_of_difference, !elem_of_list_to_set, list_elem_of_filter.
    tauto.
Qed.

(** When every local name is a scraped name, no subscript fails and
    [get_diff] returns: nothing is removed, the new records are the
    scraped ones with a name unknown locally, in the order of the set. *)
Lemma get_diff_returns scraped local :
  (∀ k, k ∈ file_path <$> local → k ∈ file_path <$> scraped) →
  ∃ new_docs,
    get_diff set_iter scraped local
    = Ok {| new := new_docs; removed := [];
            updated := updated_docs (docs_by_path scraped) (docs_by_path local) |}
    ∧ new_docs ≡ₚ filter (fun r => file_path r ∉ dict_keys (docs_by_path local))
                    (dict_values (docs_by_path scraped)).
Proof.
  intros Hsub. unfold get_diff.
  set (sd := docs_by_path scraped). set (ld := docs_by_path local).
  assert (Hsd : dict_wf sd) by apply docs_by_path_wf.
  assert (Hkeys : ∀ k, k ∈ dict_keys ld → k ∈ dict_keys sd).
  { intros k. unfold sd, ld. rewrite !docs_by_path_keys. apply Hsub. }
  destruct (updated_names_Ok sd ld Hkeys) as (names & Hn & Hin & Hdocs).
  cbv zeta. rewrite Hn. cbn [mbind result_bind].
  rewrite (mapM_getitem sd (set_iter (list_to_set (dict_keys sd)
                                        ∖ list_to_set (dict_keys ld)))).
  2:{ intros k Hk. apply set_iter_elem, elem_of_difference in Hk as [Hk _].
      by apply elem_of_list_to_set in Hk. }
  cbn [mbind result_bind].
  replace (list_to_set (dict_keys ld) ∖ list_to_set (dict_keys sd) : gset string)
    with (∅ : gset string).
  2:{ symmetry. apply set_eq. intros k.
      rewrite elem_of_difference, !elem_of_list_to_set.
      split; [intros [? ?]; exfalso; auto | intros H; by apply elem_of_empty in H]. }
  rewrite set_iter_empty. cbn [mapM mbind mret result_bind result_ret].
  rewrite (mapM_getitem sd names Hin). cbn [mbind result_bind].
  rewrite Hdocs. eexists. split; [reflexivity|].
  rewrite (set_iter_difference _ _ (proj1 Hsd)).
  unfold dict_keys, dict_values.
  rewrite (omap_get_filter (fun k => k ∉ ld.*1) sd sd); [done|].
  intros k v. by apply dict_wf_items.
Qed.

(** When a local name is not a scraped name, the subscript of line 54
    raises [KeyError] on the first such name. *)
Lemma get_diff_raises scraped local :
  ¬ (∀ k, k ∈ file_path <$> local → k ∈ file_path <$> scraped) →
  ∃ k, get_diff set_iter scraped local = Raise (KeyError k)
    ∧ k ∈ file_path <$> local ∧ k ∉ file_path <$> scraped.
Proof using Type.
  intros Hsub. unfold get_diff.
  destruct (updated_names_Raise (docs_by_path scraped) (docs_by_path local))
    as (k & Hr & Hin & Hnin).
  { intros Hall. apply Hsub. intros k. rewrite <- !docs_by_path_keys. apply Hall. }
  exists k. cbv zeta. rewrite Hr. rewrite docs_by_path_keys in Hin, Hnin. done.
Qed.

(** X2. [get_diff] never returns a record as removed: in every diff it
    returns, [removed] is empty. *)
Lemma get_diff_removed_nil scraped local d :
  get_diff set_iter scraped local = Ok d → removed d = [].
Proof.
  intros Hd.
  destruct (decide (Forall (fun k => k ∈ file_path <$> scraped)
                           (file_path <$> local))) as [Hall|Hall];
    rewrite Forall_forall in Hall.
  - destruct (get_diff_returns scraped local Hall) as (n & Heq & _).
    rewrite Heq in Hd. by injection Hd as <-.
  - destruct (get_diff_raises scraped local Hall) as (k & Heq & _).
    congruence.
Qed.

(** X3. What [updated] holds whenever [get_diff] returns: the scraped
    version of the records known locally under the same name with a
    strictly smaller [publication_date]. *)
Lemma get_diff_updated scraped local d r :
  get_diff set_iter scraped local = Ok d →
  r ∈ updated d ↔
    ∃ l, dict_get (file_path r) (docs_by_path local) = Some l
       ∧ dict_get (file_path r) (docs_by_path scraped) = Some r
       ∧ str_gt (publication_date r) (publication_date l) = true.
Proof.
  intros Hd.
  destruct (decide (Forall (fun k => k ∈ file_path <$> scraped)
                           (file_path <$> local))) as [Hall|Hall];
    rewrite Forall_forall in Hall.
  2:{ destruct (get_diff_raises scraped local Hall) as (k & Heq & _).
      congruence. }
  destruct (get_diff_returns scraped local Hall) as (n & Heq & _).
  rewrite Heq in Hd. injection Hd as <-. cbn [updated].
  pose proof (docs_by_path_wf local) as Hld.
  pose proof (docs_by_path_wf scraped) as Hsd.
  unfold updated_docs. rewrite list_elem_of_omap. split.
  - intros ([k l] & Hin & Hsome). cbn [fst snd] in Hsome.
    destruct (dict_get k (docs_by_path scraped)) as [s|] eqn:Hs; [|done].
    destruct (str_gt _ _) eqn:Hgt; [|done]. injection Hsome as ->.
    assert (Hk : k = file_path r).
    { apply dict_get_Some_elem in Hs. apply (dict_wf_items _ _ _ Hsd Hs). }
    subst k. exists l. split_and!; [|done|done].
    by apply dict_get_elem; [apply Hld|].
  - intros (l & Hl & Hs & Hgt). exists (file_path r, l). split.
    + by apply dict_get_Some_elem.
    + cbn [fst snd]. by rewrite Hs, Hgt.
Qed.

(** With an empty local collection every scraped name is new. *)
Lemma get_diff_local_empty (A : list DocumentRecord) :
  ∃ new_docs,
    get_diff set_iter A [] = Ok {| new := new_docs; removed := []; updated := [] |}
    ∧ new_docs ≡ₚ dict_values (docs_by_path A).
Proof.
  destruct (get_diff_returns A []) as (n & Heq & Hn).
  { intros k Hk. by apply elem_of_nil in Hk. }
  change (docs_by_path []) with (@nil (string * DocumentRecord)) in Heq, Hn.
  rewrite filter_not_in_nil in Hn. by exists n.
Qed.

End GetDiffFacts.

Section GetDiffClaims.

Variable set_iter : gset string → list string.
Hypothesis set_iter_perm : ∀ s, set_iter s ≡ₚ elements s.

(** C1. With nothing scraped and a non-empty local collection [r :: A],
    every local record ought to come back as removed; [get_diff] instead
    raises [KeyError] on the name of [r], the first key of the local
    dict, when the comprehension of [updated_names] subscripts the
    scraped dict with it. *)
Theorem get_diff_nothing_scraped_raises r (A : list DocumentRecord) :
  get_diff set_iter [] (r :: A) = Raise (KeyError (file_path r)).
Proof using Type.
  unfold get_diff, docs_by_path. cbn [foldl dict_set].
  destruct (docs_into_head (file_path r) r [] A) as (v' & d' & Hd).
  unfold docs_into in Hd. rewrite Hd. reflexivity.
Qed.

(** C2. [a.pdf] is in both collections and newer on the scraped side, so
    it ought to be reported as updated; with [b.pdf] known only locally
    [get_diff] raises [KeyError] instead of classifying anything. *)
Theorem get_diff_local_only_record_raises :
  get_diff set_iter [doc_a_new] [doc_a_old; doc_b] = Raise (KeyError "b.pdf").
Proof using Type. reflexivity. Qed.

(** C3. Comparing a collection with itself reports nothing: [new],
    [removed] and [updated] are all empty (whether or not the names in
    the collection are unique). *)
Theorem get_diff_same (A : list DocumentRecord) :
  get_diff set_iter A A = Ok {| new := []; removed := []; updated := [] |}.
Proof.
  destruct (get_diff_returns set_iter set_iter_perm A A) as (n & Heq & Hn);
    [done|].
  rewrite Heq, updated_docs_self by apply docs_by_path_wf.
  assert (Hnil : filter (fun r => file_path r ∉ dict_keys (docs_by_path A))
                   (dict_values (docs_by_path A)) = []).
  { destruct (filter _ _) as [|x xs] eqn:Hf; [done|]. exfalso.
    assert (Hx : x ∈ x :: xs) by by left.
    rewrite <- Hf in Hx. apply list_elem_of_filter in Hx as [Hnot Hx].
    apply Hnot.
    rewrite <- (proj1 (dict_wf_values _ (docs_by_path_wf A))).
    by apply list_elem_of_fmap_2. }
  rewrite Hnil in Hn. apply Permutation_nil_r in Hn. by subst n.
Qed.

(** C4. With an empty local collection [get_diff] returns, nothing is
    removed or updated, and [new] is the scraped collection as a set
    keyed by [file_path]: one record per scraped name (the one the
    scraped dict holds), and a rearrangement of [A] itself when the names
    in [A] are unique. *)
Theorem get_diff_nothing_local (A : list DocumentRecord) :
  ∃ new_docs,
    get_diff set_iter A [] = Ok {| new := new_docs; removed := []; updated := [] |}
    ∧ new_docs ≡ₚ dict_values (docs_by_path A)
    ∧ NoDup (file_path <$> new_docs)
    ∧ (∀ k, k ∈ file_path <$> new_docs ↔ k ∈ file_path <$> A)
    ∧ (NoDup (file_path <$> A) → new_docs ≡ₚ A).
Proof.
  destruct (get_diff_local_empty set_iter set_iter_perm A) as (n & Heq & Hn).
  destruct (dict_wf_values _ (docs_by_path_wf A)) as [Hkeys _].
  assert (Hnk : file_path <$> n ≡ₚ dict_keys (docs_by_path A)).
  { by rewrite Hn, Hkeys. }
  exists n. split_and!; [done | done | | |].
  - rewrite Hnk. apply docs_by_path_wf.
  - intros k. rewrite Hnk. apply docs_by_path_keys.
  - intros Hnd. by rewrite Hn, docs_unique_values.
Qed.


End GetDiffClaims.

(** The example of a newer [a.pdf] and an unknown [b.pdf]. *)
Example get_diff_newer_and_new :
  get_diff elements [doc_a_new; doc_b] [doc_a_old]
  = Ok {| new := [doc_b]; removed := []; updated := [doc_a_new] |}.
Proof. vm_compute. reflexivity. Qed.

(** Equal dates are not an update. *)
Example get_diff_equal_dates :
  get_diff elements [doc_a_old; doc_b] [doc_a_old]
  = Ok {| new := [doc_b]; removed := []; updated := [] |}.
Proof. vm_compute. reflexivity. Qed.

(** ** Running commands *)

Section Runs.

Context {A B : Type}.
Implicit Types (m : M A) (f : A → M B).

Lemma bind_Ok m f w x w' : m w = (Ok x, w') → (m ≫= f) w = f x w'.
Proof. intros H. unfold mbind, M_bind. by rewrite H. Qed.

Lemma bind_Raise m f w e w' :
  m w = (Raise e, w') → (m ≫= f) w = (Raise e, w').
Proof. intros H. unfold mbind, M_bind. by rewrite H. Qed.

Lemma bind_inv m f w r w2 :
  (m ≫= f) w = (r, w2) →
  (∃ x w1, m w = (Ok x, w1) ∧ f x w1 = (r, w2))
  ∨ (∃ e, m w = (Raise e, w2) ∧ r = Raise e).
Proof.
  unfold mbind, M_bind. destruct (m w) as [[x|e] w1]; intros H.
  - left. by exists x, w1.
  - right. exists e. by injection H as <- <-.
Qed.

End Runs.

Section Stable.

Context (R : relation World) `{!PreOrder R}.

Lemma stable_ret {A} (x : A) : stable R (mret x).
Proof. intros w. simpl. reflexivity. Qed.

Lemma stable_raise {A} e : stable R (raise (A:=A) e).
Proof. intros w. simpl. reflexivity. Qed.

Lemma stable_lift {A} (r : result A) : stable R (lift r).
Proof. intros w. simpl. reflexivity. Qed.

Lemma stable_get_files : stable R get_files.
Proof. intros w. simpl. reflexivity. Qed.

Lemma stable_bind {A B} (m : M A) (f : A → M B) :
  stable R m → (∀ x, stable R (f x)) → stable R (m ≫= f).
Proof.
  intros Hm Hf w. unfold mbind, M_bind. specialize (Hm w).
  destruct (m w) as [[x|e] w1]; simpl in *; [|done].
  by etrans; [|apply Hf].
Qed.

Lemma stable_path_exists p : stable R (path_exists p).
Proof.
  apply stable_bind; [apply stable_get_files | intros; apply stable_ret].
Qed.

End Stable.

#[local] Instance read_only_step_preorder : PreOrder read_only_step.
Proof.
  split.
  - intros w. split; [done|]. exists []. by rewrite app_nil_r.
  - intros w1 w2 w3 [Hf1 (evs1 & He1 & Hw1)] [Hf2 (evs2 & He2 & Hw2)]. split.
    + congruence.
    + exists (evs1 ++ evs2). rewrite He2, He1, app_assoc. split; [done|].
      by apply Forall_app.
Qed.

Lemma read_only_log ev : ¬ opens_for_writing ev → stable read_only_step (log ev).
Proof.
  intros Hev w. split; [done|]. exists [ev]. split; [done|].
  by repeat constructor.
Qed.

Lemma read_only_open_read p : stable read_only_step (open_read p).
Proof.
  apply stable_bind; [apply _ | apply stable_get_files; apply _ | intros fs].
  destruct (node_at fs p) as [[|content]|]; try (apply stable_raise; apply _).
  apply stable_bind; [apply _ | | intros; apply stable_ret; apply _].
  apply read_only_log. simpl. tauto.
Qed.

Section CommandClaims.

Variable set_iter : gset string → list string.
Hypothesis set_iter_perm : ∀ s, set_iter s ≡ₚ elements s.
Variable env : Env.

Lemma read_only_status data_dir fmt :
  stable read_only_step (status set_iter env data_dir fmt).
Proof using Type.
  unfold status, load_local_meta, scrape_document_info, echo.
  repeat first
    [ apply stable_path_exists; apply _
    | apply read_only_open_read
    | apply stable_bind; [apply _ | | intros ?]
    | apply stable_ret; apply _
    | apply stable_raise; apply _
    | apply stable_lift; apply _
    | apply read_only_open_read
    | apply read_only_log; simpl; tauto
    | match goal with |- stable _ (match ?x with _ => _ end) => destruct x end ].
Qed.

(** C6. When the destination already exists, [download] raises the
    [ClickException] that names it and the world is as before: the same
    files, and no event (no run of the spider, no request, no file
    opened). *)
Theorem download_existing_destination dest_dir w :
  is_Some (node_at (files w) (Path dest_dir)) →
  download env dest_dir w
  = (Raise (ClickException
             ("destination directory '" ++ path_str (Path dest_dir)
              ++ "' already exists")%string), w).
Proof using Type.
  intros Hex. unfold download, path_exists.
  unfold mbind, M_bind, get_files, mret, M_ret. simpl.
  by rewrite bool_decide_eq_true_2.
Qed.

(** C8. Whatever the data directory, the output format and the outcome,
    [status] leaves every file as it was and opens no file for
    writing. *)
Theorem status_read_only data_dir fmt w :
  files (status set_iter env data_dir fmt w).2 = files w
  ∧ ∃ evs, events (status set_iter env data_dir fmt w).2 = events w ++ evs
      ∧ Forall (fun ev => ¬ opens_for_writing ev) evs.
Proof using Type. apply read_only_status. Qed.

Lemma path_exists_run p w :
  path_exists p w = (Ok (bool_decide (is_Some (node_at (files w) p))), w).
Proof using Type. reflexivity. Qed.

Lemma open_read_run p w content :
  node_at (files w) p = Some (File content) →
  open_read p w
  = (Ok content, {| files := files w; events := events w ++ [EvOpen p ReadText] |}).
Proof using Type.
  intros Hp. unfold open_read, mbind, M_bind, get_files. by rewrite Hp.
Qed.

Lemma scrape_run w :
  scrape_document_info env w
  = (spider env, {| files := files w; events := events w ++ [EvScrape] |}).
Proof using Type. reflexivity. Qed.


Lemma load_local_meta_present meta_path w content :
  node_at (files w) meta_path = Some (File content) →
  load_local_meta env meta_path w
  = (match json_load env content with
     | Some local_meta => Ok local_meta
     | None => Raise JSONDecodeError
     end,
     {| files := files w; events := events w ++ [EvOpen meta_path ReadText] |}).
Proof using Type.
  intros Hp. unfold load_local_meta.
  rewrite (bind_Ok _ _ _ _ _ (path_exists_run meta_path w)), Hp.
  rewrite bool_decide_eq_true_2 by eauto. cbn [negb].
  rewrite (bind_Ok _ _ _ _ _ (open_read_run meta_path w content Hp)).
  by destruct (json_load env content).
Qed.


(** X17. A decoded manifest without [document_info] is not rejected by
    the load: [status] raises [KeyError] on the subscript of line 95,
    after the spider has run. *)
Lemma status_missing_document_info data_dir fmt w content local_meta scraped :
  let meta_path := path_join (Path data_dir) "meta.json" in
  node_at (files w) meta_path = Some (File content) →
  json_load env content = Some local_meta →
  meta_document_info local_meta = None →
  spider env = Ok scraped →
  status set_iter env data_dir fmt w
  = (Raise (KeyError "document_info"),
     {| files := files w;
        events := (events w ++ [EvOpen meta_path ReadText]) ++ [EvScrape] |}).
Proof using Type.
  intros meta_path Hp Hj Hnone Hs. unfold status. cbv zeta. fold meta_path.
  erewrite bind_Ok
    by (rewrite (load_local_meta_present _ _ _ Hp), Hj; reflexivity).
  erewrite bind_Ok by (rewrite scrape_run, Hs; reflexivity).
  rewrite Hnone. reflexivity.
Qed.

End CommandClaims.

(** ** Creating directories and writing files *)

Section StableMkdir.

Context (R : relation World) `{!PreOrder R}.
Hypothesis stable_os_mkdir : ∀ q, stable R (os_mkdir q).

Lemma stable_mkdir_exist_ok p : stable R (mkdir_exist_ok p).
Proof using All.
  intros w. unfold mkdir_exist_ok. specialize (stable_os_mkdir p w).
  destruct (os_mkdir p w) as [[[]|e] w']; simpl in *; [done|].
  destruct e; try done; by destruct (node_at (files w') p) as [[|?]|].
Qed.

Lemma stable_mkdir_parents n p : stable R (mkdir_parents n p).
Proof using All.
  induction n as [|n IH]; intros w; cbn [mkdir_parents];
    match goal with
    | |- context [os_mkdir ?q w] =>
        pose proof (stable_os_mkdir q w) as Hq;
        destruct (os_mkdir q w) as [[[]|e] w']
    end; simpl in *; try done.
  - destruct e; try done; by destruct (node_at (files w') _) as [[|?]|].
  - destruct e; try (by destruct (node_at (files w') _) as [[|?]|]).
    etrans; [exact Hq|].
    apply (stable_bind R); [exact IH | intros; apply stable_mkdir_exist_ok].
Qed.

End StableMkdir.

#[local] Instance extends_preorder : PreOrder extends.
Proof. split; [by intros w p n | intros w1 w2 w3 H1 H2 p n H; eauto]. Qed.

#[local] Instance keeps_except_preorder q : PreOrder (keeps_except q).
Proof. split; [by intros w p n | intros w1 w2 w3 H1 H2 p n Hp H; eauto]. Qed.

#[local] Instance no_text_write_preorder : PreOrder no_text_write.
Proof.
  split.
  - intros w. exists []. by rewrite app_nil_r.
  - intros w1 w2 w3 (evs1 & He1 & Hw1) (evs2 & He2 & Hw2).
    exists (evs1 ++ evs2). rewrite He2, He1, app_assoc. split; [done|].
    by apply Forall_app.
Qed.


Lemma node_at_None fs p :
  node_at fs p = None → is_root p = false ∧ fs !! p = None.
Proof. unfold node_at. by destruct (is_root p). Qed.

Lemma node_at_not_root fs p : is_root p = false → node_at fs p = fs !! p.
Proof. unfold node_at. by intros ->. Qed.

Lemma os_mkdir_extends q : stable extends (os_mkdir q).
Proof.
  intros w. unfold os_mkdir, mbind, M_bind, get_files.
  destruct (node_at (files w) q) as [?|] eqn:Hq; [done|].
  apply node_at_None in Hq as [_ Hq].
  destruct (node_at (files w) (path_parent q)) as [[|?]|]; try done.
  intros p n Hp. simpl. rewrite lookup_insert_ne; [done|]. congruence.
Qed.

Lemma os_mkdir_events q w : events (os_mkdir q w).2 = events w.
Proof.
  unfold os_mkdir, mbind, M_bind, get_files.
  destruct (node_at (files w) q) as [?|]; [done|].
  by destruct (node_at (files w) (path_parent q)) as [[|?]|].
Qed.


Lemma open_write_inv p mode w w' :
  open_write p mode w = (Ok tt, w') →
  is_root p = false
  ∧ w' = {| files := <[p := File ""%string]> (files w);
            events := events w ++ [EvOpen p mode] |}.
Proof.
  unfold open_write, mbind, M_bind, get_files, node_at at 1.
  destruct (is_root p) eqn:Hroot; [done|].
  destruct (files w !! p) as [[|?]|];
    destruct (node_at (files w) (path_parent p)) as [[|?]|];
    try done; by intros [= <-].
Qed.








(** ** [download_documents] and [download] *)

Section DownloadFacts.

Variable env : Env.
Implicit Types (dest : list string) (d : DocumentRecord).
Implicit Types (docs : list DocumentRecord) (w : World).







End DownloadFacts.

Section DownloadClaims.

Variable env : Env.

Lemma os_mkdir_Ok p w w' :
  os_mkdir p w = (Ok tt, w') →
  node_at (files w) p = None
  ∧ w' = {| files := <[p := Dir]> (files w); events := events w |}.
Proof.
  unfold os_mkdir, mbind, M_bind, get_files.
  destruct (node_at (files w) p) as [?|]; [done|].
  destruct (node_at (files w) (path_parent p)) as [[|?]|]; try done.
  by intros [= <-].
Qed.

(** The run of [download] up to the loop over the documents. *)
Lemma download_run dest_dir w w0 docs :
  os_mkdir (Path dest_dir) w = (Ok tt, w0) →
  spider env = Ok docs →
  download env dest_dir w
  = (download_documents env docs (Path dest_dir);;
     open_write (path_join (Path dest_dir) "meta.json") WriteText;;
     set_node (path_join (Path dest_dir) "meta.json")
              (File (json_dump env (manifest env docs))))
      {| files := files w0; events := events w0 ++ [EvScrape] |}.
Proof.
  intros Hmk Hs. destruct (os_mkdir_Ok _ _ _ Hmk) as [Hnone _].
  unfold download. cbv zeta.
  rewrite (bind_Ok _ _ _ _ _ (path_exists_run (Path dest_dir) w)), Hnone.
  rewrite bool_decide_eq_false_2 by by intros [? ?].
  rewrite (bind_Ok _ _ _ _ _ Hmk).
  erewrite bind_Ok by (rewrite scrape_run, Hs; reflexivity).
  reflexivity.
Qed.

Lemma download_Ok_inv dest_dir w w' :
  download env dest_dir w = (Ok tt, w') →
  ∃ w0 docs, os_mkdir (Path dest_dir) w = (Ok tt, w0) ∧ spider env = Ok docs.
Proof.
  unfold download. cbv zeta. intros H.
  apply bind_inv in H as [(found & w1 & Hex & H)|(e & _ & ?)]; [|done].
  rewrite path_exists_run in Hex. injection Hex as <- <-.
  destruct (bool_decide _); [done|].
  apply bind_inv in H as [([] & w0 & Hmk & H)|(e & _ & ?)]; [|done].
  apply bind_inv in H as [(docs & w2 & Hs & H)|(e & _ & ?)]; [|done].
  rewrite scrape_run in Hs. injection Hs as Hs _. by exists w0, docs.
Qed.


(** [download] returns only after the loop over the documents has
    returned, and the manifest is the last file it opens. *)
Lemma download_Ok_after_documents dest_dir w w' :
  download env dest_dir w = (Ok tt, w') →
  ∃ w0 docs w3,
    os_mkdir (Path dest_dir) w = (Ok tt, w0)
    ∧ spider env = Ok docs
    ∧ download_documents env docs (Path dest_dir)
        {| files := files w0; events := events w0 ++ [EvScrape] |} = (Ok tt, w3)
    ∧ is_root (path_join (Path dest_dir) "meta.json") = false
    ∧ w' = {| files := <[path_join (Path dest_dir) "meta.json" :=
                          File (json_dump env (manifest env docs))]> (files w3);
              events := events w3
                ++ [EvOpen (path_join (Path dest_dir) "meta.json") WriteText] |}.
Proof.
  intros Hrun. destruct (download_Ok_inv _ _ _ Hrun) as (w0 & docs & Hmk & Hs).
  rewrite (download_run _ _ _ _ Hmk Hs) in Hrun.
  apply bind_inv in Hrun as [([] & w3 & Hloop & H)|(e & _ & ?)]; [|done].
  apply bind_inv in H as [([] & w4 & Hopen & H)|(e & _ & ?)]; [|done].
  apply open_write_inv in Hopen as [Hroot ->].
  exists w0, docs, w3. split_and!; try done.
  injection H as <-. simpl. by rewrite insert_insert_eq.
Qed.


End DownloadClaims.

(** ** Examples *)

Lemma get_diff_same_witness :
  (∀ s : gset string, elements s ≡ₚ elements s)
  ∧ get_diff elements [doc_a_old; doc_b] [doc_a_old; doc_b]
    = Ok {| new := []; removed := []; updated := [] |}.
Proof.
  split; [intros s; reflexivity|].
  apply (get_diff_same elements). intros s. reflexivity.
Defined.

Lemma get_diff_nothing_local_witness :
  (∀ s : gset string, elements s ≡ₚ elements s)
  ∧ ∃ new_docs,
      get_diff elements [doc_a_old; doc_b] []
      = Ok {| new := new_docs; removed := []; updated := [] |}
      ∧ new_docs ≡ₚ [doc_a_old; doc_b].
Proof.
  split; [intros s; reflexivity|].
  destruct (get_diff_nothing_local elements (fun s => reflexivity (elements s))
              [doc_a_old; doc_b]) as (n & Hd & _ & _ & _ & Hn).
  exists n. split; [exact Hd|]. apply Hn. cbn [fmap list_fmap].
  apply NoDup_cons. split; [|apply NoDup_singleton].
  intros H. apply list_elem_of_singleton in H. discriminate H.
Defined.

Lemma download_existing_destination_witness :
  download (sample_env [doc_a_new]) "data" (data_world "")
  = (Raise (ClickException "destination directory 'data' already exists"),
     data_world "").
Proof.
  apply (download_existing_destination (sample_env [doc_a_new]) "data"
           (data_world "")).
  vm_compute. eexists. reflexivity.
Defined.





(** * Further properties *)

(** ** What [get_diff] returns *)

Lemma str_gt_asym a b : str_gt a b = true → str_gt b a = false.
Proof.
  unfold str_gt. rewrite (String.compare_antisym b a).
  by destruct (String.compare a b).
Qed.

Lemma dict_values_elem (d : list (string * DocumentRecord)) r :
  dict_wf d → r ∈ dict_values d ↔ dict_get (file_path r) d = Some r.
Proof.
  intros Hd. unfold dict_values. rewrite list_elem_of_fmap. split.
  - intros ([k v] & -> & Hin). simpl.
    destruct (dict_wf_items d k v Hd Hin) as [Hget ->]. done.
  - intros Hget. exists (file_path r, r). split; [done|].
    by apply dict_get_Some_elem.
Qed.

Lemma updated_docs_elem (sd ld : list (string * DocumentRecord)) u :
  dict_wf sd → dict_wf ld →
  u ∈ updated_docs sd ld ↔
    ∃ l, dict_get (file_path u) ld = Some l
       ∧ dict_get (file_path u) sd = Some u
       ∧ str_gt (publication_date u) (publication_date l) = true.
Proof.
  intros Hsd Hld. unfold updated_docs. rewrite list_elem_of_omap. split.
  - intros ([k l] & Hin & Hsome). cbn [fst snd] in Hsome.
    destruct (dict_get k sd) as [s|] eqn:Hs; [|done].
    destruct (str_gt _ _) eqn:Hgt; [|done]. injection Hsome as ->.
    assert (Hk : k = file_path u).
    { apply dict_get_Some_elem in Hs. apply (dict_wf_items _ _ _ Hsd Hs). }
    subst k. exists l. split_and!; [|done|done].
    by apply dict_get_elem; [apply Hld|].
  - intros (l & Hl & Hs & Hgt). exists (file_path u, l). split.
    + by apply dict_get_Some_elem.
    + cbn [fst snd]. by rewrite Hs, Hgt.
Qed.

Section GetDiffFurther.

Variable set_iter : gset string → list string.
Hypothesis set_iter_perm : ∀ s, set_iter s ≡ₚ elements s.

Implicit Types (scraped local : list DocumentRecord).

(** All that a returned diff is made of. *)
Lemma get_diff_Ok_inv scraped local d :
  get_diff set_iter scraped local = Ok d →
  (∀ k, k ∈ file_path <$> local → k ∈ file_path <$> scraped)
  ∧ removed d = []
  ∧ updated d = updated_docs (docs_by_path scraped) (docs_by_path local)
  ∧ new d ≡ₚ filter (fun r => file_path r ∉ dict_keys (docs_by_path local))
               (dict_values (docs_by_path scraped)).
Proof.
  intros Hd.
  destruct (decide (Forall (fun k => k ∈ file_path <$> scraped)
                           (file_path <$> local))) as [Hall|Hall];
    rewrite Forall_forall in Hall.
  - destruct (get_diff_returns set_iter set_iter_perm scraped local Hall)
      as (n & Heq & Hn).
    rewrite Heq in Hd. by injection Hd as <-.
  - destruct (get_diff_raises set_iter scraped local Hall) as (k & Heq & _).
    congruence.
Qed.

Lemma get_diff_self (A : list DocumentRecord) :
  get_diff set_iter A A = Ok {| new := []; removed := []; updated := [] |}.
Proof.
  destruct (get_diff_returns set_iter set_iter_perm A A) as (n & Heq & Hn);
    [done|].
  rewrite Heq, updated_docs_self by apply docs_by_path_wf.
  destruct (filter _ _) as [|x xs] eqn:Hf.
  - apply Permutation_nil_r in Hn. by subst n.
  - exfalso. assert (Hx : x ∈ x :: xs) by by left.
    rewrite <- Hf in Hx. apply list_elem_of_filter in Hx as [Hnot Hx].
    apply Hnot.
    rewrite <- (proj1 (dict_wf_values _ (docs_by_path_wf A))).
    by apply list_elem_of_fmap_2.
Qed.

(** X1. [get_diff] returns exactly when every local [file_path] is also a
    scraped one; otherwise it raises [KeyError] on a [file_path] that is
    local and not scraped. *)
Theorem get_diff_returns_or_raises scraped local :
  match get_diff set_iter scraped local with
  | Ok _ => ∀ k, k ∈ file_path <$> local → k ∈ file_path <$> scraped
  | Raise e =>
      ∃ k, e = KeyError k
        ∧ k ∈ file_path <$> local ∧ k ∉ file_path <$> scraped
  end.
Proof.
  destruct (decide (Forall (fun k => k ∈ file_path <$> scraped)
                           (file_path <$> local))) as [Hall|Hall];
    rewrite Forall_forall in Hall.
  - destruct (get_diff_returns set_iter set_iter_perm scraped local Hall)
      as (n & -> & _). exact Hall.
  - destruct (get_diff_raises set_iter scraped local Hall) as (k & -> & Hk).
    by exists k.
Qed.

(** X4. In a returned diff, [new] holds each scraped record (the one the
    scraped dict keeps under its name) whose [file_path] is unknown
    locally, and no two records of [new] share a [file_path]. *)
Theorem get_diff_new_records scraped local d :
  get_diff set_iter scraped local = Ok d →
  NoDup (file_path <$> new d)
  ∧ ∀ r, r ∈ new d ↔
      dict_get (file_path r) (docs_by_path scraped) = Some r
      ∧ file_path r ∉ file_path <$> local.
Proof.
  intros Hd. destruct (get_diff_Ok_inv _ _ _ Hd) as (_ & _ & _ & Hn).
  pose proof (docs_by_path_wf scraped) as Hsd. split.
  - rewrite Hn.
    apply (sublist_NoDup _ (file_path <$> dict_values (docs_by_path scraped))).
    + rewrite (proj1 (dict_wf_values _ Hsd)). apply Hsd.
    + apply fmap_sublist, sublist_filter.
  - intros r. rewrite Hn, list_elem_of_filter, (dict_values_elem _ _ Hsd).
    rewrite docs_by_path_keys. tauto.
Qed.

(** X5. In a returned diff no [file_path] is reported both as new and as
    updated. *)
Theorem get_diff_new_updated_disjoint scraped local d r u :
  get_diff set_iter scraped local = Ok d →
  r ∈ new d → u ∈ updated d → file_path r ≠ file_path u.
Proof.
  intros Hd Hr Hu. destruct (get_diff_Ok_inv _ _ _ Hd) as (_ & _ & Hupd & Hn).
  rewrite Hn in Hr. apply list_elem_of_filter in Hr as [Hr _].
  rewrite Hupd in Hu.
  apply updated_docs_elem in Hu as (l & Hl & _); [|apply docs_by_path_wf..].
  intros Heq. apply Hr. rewrite Heq. apply dict_get_is_Some. by exists l.
Qed.

(** X6. An update goes one way: when both [get_diff A B] and
    [get_diff B A] return, no [file_path] is updated in both. *)
Theorem get_diff_updated_one_direction (A B : list DocumentRecord) d1 d2 r1 r2 :
  get_diff set_iter A B = Ok d1 →
  get_diff set_iter B A = Ok d2 →
  r1 ∈ updated d1 → r2 ∈ updated d2 → file_path r1 ≠ file_path r2.
Proof.
  intros H1 H2 Hr1 Hr2 Heq.
  destruct (get_diff_Ok_inv _ _ _ H1) as (_ & _ & Hu1 & _).
  destruct (get_diff_Ok_inv _ _ _ H2) as (_ & _ & Hu2 & _).
  rewrite Hu1 in Hr1. rewrite Hu2 in Hr2.
  apply updated_docs_elem in Hr1 as (l1 & Hl1 & Hs1 & Hgt1);
    [|apply docs_by_path_wf..].
  apply updated_docs_elem in Hr2 as (l2 & Hl2 & Hs2 & Hgt2);
    [|apply docs_by_path_wf..].
  rewrite <- Heq in Hl2, Hs2.
  assert (l2 = r1) by congruence. assert (l1 = r2) by congruence. subst.
  apply str_gt_asym in Hgt1. congruence.
Qed.

End GetDiffFurther.

(** ** The loop of [download_documents] *)

#[local] Instance same_events_preorder : PreOrder same_events.
Proof.
  split; [by intros w | intros w1 w2 w3 H1 H2]. unfold same_events in *.
  congruence.
Qed.

Lemma mkdir_parents_events n p w : events (mkdir_parents n p w).2 = events w.
Proof.
  apply (stable_mkdir_parents same_events).
  intros q w'. apply os_mkdir_events.
Qed.

Section LoopFacts.

Variable env : Env.
Implicit Types (dest : list string) (d : DocumentRecord).
Implicit Types (docs : list DocumentRecord) (w : World).

Lemma download_document_events dest d w w' :
  download_document env dest d w = (Ok tt, w') →
  events w' = events w ++ doc_events dest d.
Proof.
  unfold download_document. cbv zeta. intros H.
  apply bind_inv in H as [([] & w1 & Hmk & H)|(e & _ & ?)]; [|done].
  pose proof (mkdir_parents_events
                (length (path_parent (path_join dest (file_path d))))
                (path_parent (path_join dest (file_path d))) w) as Hev.
  rewrite Hmk in Hev. simpl in Hev.
  apply bind_inv in H as [([] & w2 & Hlog & H)|(e & _ & ?)]; [|done].
  injection Hlog as <-.
  destruct (http env (url d)) as [| |content]; [done| |].
  - apply bind_inv in H as [([] & w3 & _ & H)|(e & _ & ?)]; done.
  - apply bind_inv in H as [([] & w3 & Hopen & H)|(e & _ & ?)]; [|done].
    apply open_write_inv in Hopen as [_ ->]. injection H as <-. simpl.
    by rewrite Hev, <- app_assoc.
Qed.

Lemma download_documents_events docs dest w w' :
  download_documents env docs dest w = (Ok tt, w') →
  events w' = events w ++ flat_map (doc_events dest) docs.
Proof.
  revert w. induction docs as [|d docs IH]; intros w Hrun.
  - injection Hrun as <-. by rewrite app_nil_r.
  - cbn [download_documents] in Hrun.
    apply bind_inv in Hrun as [([] & w1 & Hstep & Hrest)|(e & _ & ?)]; [|done].
    rewrite (IH _ Hrest), (download_document_events _ _ _ _ Hstep).
    cbn [flat_map]. by rewrite <- app_assoc.
Qed.

(** X7. The loop stops at the first record that fails: when the records
    before [d] are downloaded and the turn for [d] raises, the loop raises
    the same exception in the world that turn left, whatever records
    follow. *)
Theorem download_documents_stops_at_first_failure docs1 d docs2 dest w w1 e w2 :
  download_documents env docs1 dest w = (Ok tt, w1) →
  download_document env dest d w1 = (Raise e, w2) →
  download_documents env (docs1 ++ d :: docs2) dest w = (Raise e, w2).
Proof.
  revert w. induction docs1 as [|d1 docs1 IH]; intros w Hok Hfail.
  - injection Hok as <-. cbn [app download_documents].
    by apply bind_Raise.
  - cbn [download_documents] in Hok.
    apply bind_inv in Hok as [([] & w' & Hstep & Hrest)|(e' & _ & ?)]; [|done].
    cbn [app download_documents]. rewrite (bind_Ok _ _ _ _ _ Hstep).
    by apply IH.
Qed.


(** X8. The events of a [download] that returns: the spider runs first,
    then for each record in the order of the scraped list one request and
    one file opened in binary mode, and last the manifest opened in text
    mode. *)
Theorem download_trace dest_dir w w' :
  download env dest_dir w = (Ok tt, w') →
  ∃ docs,
    spider env = Ok docs
    ∧ events w'
      = events w ++ [EvScrape] ++ flat_map (doc_events (Path dest_dir)) docs
        ++ [EvOpen (path_join (Path dest_dir) "meta.json") WriteText].
Proof.
  intros Hrun.
  destruct (download_Ok_after_documents _ _ _ _ Hrun)
    as (w0 & docs & w3 & Hmk & Hs & Hloop & _ & ->).
  exists docs. split; [done|]. simpl.
  rewrite (download_documents_events _ _ _ _ Hloop). simpl.
  apply os_mkdir_Ok in Hmk as [_ ->]. simpl.
  by rewrite <- !app_assoc.
Qed.

End LoopFacts.

(** ** What a failed turn leaves behind *)

Section StableMkdirPrefix.

Context (R : relation World) `{!PreOrder R} (p : list string).
Hypothesis stable_os_mkdir_prefix : ∀ k, stable R (os_mkdir (take k p)).



End StableMkdirPrefix.

#[local] Instance keeps_at_preorder p : PreOrder (keeps_at p).
Proof.
  split; [by intros w | intros w1 w2 w3 H1 H2]. unfold keeps_at in *.
  congruence.
Qed.




Lemma open_write_Raise p mode w e w' :
  open_write p mode w = (Raise e, w') → os_error e ∧ w' = w.
Proof.
  unfold open_write, mbind, M_bind, get_files.
  destruct (node_at (files w) p) as [[|?]|];
    destruct (node_at (files w) (path_parent p)) as [[|?]|];
    try done; by intros [= <- <-].
Qed.

Lemma open_write_Ok_not_dir p mode w w' :
  open_write p mode w = (Ok tt, w') → node_at (files w) p ≠ Some Dir.
Proof.
  unfold open_write, mbind, M_bind, get_files.
  by destruct (node_at (files w) p) as [[|?]|].
Qed.





Section TurnFacts.

Variable env : Env.


End TurnFacts.

(** ** Directories, and running [download] again *)

#[local] Instance keeps_dirs_preorder : PreOrder keeps_dirs.
Proof. split; [by intros w p | intros w1 w2 w3 H1 H2 p H; eauto]. Qed.

Lemma extends_keeps_dirs w w' : extends w w' → keeps_dirs w w'.
Proof.
  intros H p. unfold node_at. destruct (is_root p); [done|]. apply H.
Qed.

Lemma os_mkdir_keeps_dirs q : stable keeps_dirs (os_mkdir q).
Proof. intros w. apply extends_keeps_dirs, os_mkdir_extends. Qed.

Lemma log_keeps_dirs ev : stable keeps_dirs (log ev).
Proof. by intros w p. Qed.

Lemma open_write_keeps_dirs p mode : stable keeps_dirs (open_write p mode).
Proof.
  intros w q Hq. destruct (open_write p mode w) as [[[]|e] w1] eqn:Hopen.
  - pose proof (open_write_Ok_not_dir _ _ _ _ Hopen) as Hp.
    apply open_write_inv in Hopen as [_ ->]. simpl.
    unfold node_at in *. destruct (is_root q); [done|].
    rewrite lookup_insert_ne; [done|]. intros ->.
    destruct (is_root q); congruence.
  - by apply open_write_Raise in Hopen as [_ ->].
Qed.

(** Opening a file and writing it, as the script always does. *)
Lemma write_file_keeps_dirs p mode content :
  stable keeps_dirs (open_write p mode;; set_node p (File content)).
Proof.
  intros w q Hq. unfold mbind, M_bind.
  pose proof (open_write_keeps_dirs p mode w q Hq) as Hq1.
  destruct (open_write p mode w) as [[[]|e] w1] eqn:Hopen; [|done].
  pose proof (open_write_Ok_not_dir _ _ _ _ Hopen) as Hp.
  apply open_write_inv in Hopen as [Hroot ->]. simpl in *.
  unfold node_at in *. destruct (is_root q) eqn:Hrq; [done|].
  destruct (decide (q = p)) as [->|Hne].
  - rewrite Hrq in Hp. congruence.
  - by rewrite !lookup_insert_ne by done.
Qed.

Section DirectoryFacts.

Variable env : Env.

Lemma download_document_keeps_dirs dest d :
  stable keeps_dirs (download_document env dest d).
Proof.
  unfold download_document. cbv zeta.
  apply stable_bind; [apply _ | | intros _].
  { apply stable_mkdir_parents; [apply _ | apply os_mkdir_keeps_dirs]. }
  apply stable_bind; [apply _ | apply log_keeps_dirs | intros _].
  destruct (http env (url d)).
  - apply stable_raise, _.
  - apply stable_bind; [apply _ | apply open_write_keeps_dirs | intros _].
    apply stable_raise, _.
  - apply write_file_keeps_dirs.
Qed.

Lemma download_documents_keeps_dirs docs dest :
  stable keeps_dirs (download_documents env docs dest).
Proof.
  induction docs as [|d docs IH]; cbn [download_documents].
  - apply stable_ret, _.
  - apply stable_bind; [apply _ | apply download_document_keeps_dirs | done].
Qed.

Lemma download_stable_keeps_dirs dest_dir :
  stable keeps_dirs (download env dest_dir).
Proof.
  unfold download. cbv zeta.
  apply stable_bind; [apply _ | apply stable_path_exists, _ | intros found].
  destruct found; [apply stable_raise, _|].
  apply stable_bind; [apply _ | apply os_mkdir_keeps_dirs | intros _].
  apply stable_bind; [apply _ | | intros docs].
  { unfold scrape_document_info.
    apply stable_bind; [apply _ | apply log_keeps_dirs | intros _].
    apply stable_lift, _. }
  apply stable_bind;
    [apply _ | apply download_documents_keeps_dirs | intros _].
  apply write_file_keeps_dirs.
Qed.

(** The message of [download] for a destination that exists. *)
Lemma download_exists_run dest_dir w n :
  node_at (files w) (Path dest_dir) = Some n →
  download env dest_dir w
  = (Raise (ClickException
             ("destination directory '" ++ path_str (Path dest_dir)
              ++ "' already exists")%string), w).
Proof.
  intros Hex. unfold download. cbv zeta.
  rewrite (bind_Ok _ _ _ _ _ (path_exists_run (Path dest_dir) w)), Hex.
  by rewrite bool_decide_eq_true_2 by eauto.
Qed.

(** X11. [download] never turns a directory into a file or removes it:
    what is a directory before the run is a directory after it, whether
    the run returns or raises. *)
Theorem download_keeps_directories dest_dir w p :
  node_at (files w) p = Some Dir →
  node_at (files (download env dest_dir w).2) p = Some Dir.
Proof. apply download_stable_keeps_dirs. Qed.

(** X13. When the destination does not exist and its parent is not an
    existing directory, [download] raises an exception of the file system
    from [mkdir] and the world is as before: the spider is not run. *)
Theorem download_missing_parent dest_dir w :
  node_at (files w) (Path dest_dir) = None →
  node_at (files w) (path_parent (Path dest_dir)) ≠ Some Dir →
  ∃ e, os_error e ∧ download env dest_dir w = (Raise e, w).
Proof.
  intros Hnone Hparent.
  assert (∃ e, os_error e ∧ os_mkdir (Path dest_dir) w = (Raise e, w))
    as (e & He & Hmk).
  { unfold os_mkdir, mbind, M_bind, get_files. rewrite Hnone.
    destruct (node_at (files w) (path_parent (Path dest_dir))) as [[|?]|];
      [done | |]; eexists; (split; [|reflexivity]); done. }
  exists e. split; [done|]. unfold download. cbv zeta.
  rewrite (bind_Ok _ _ _ _ _ (path_exists_run (Path dest_dir) w)), Hnone.
  rewrite bool_decide_eq_false_2 by by intros [? ?].
  by apply bind_Raise.
Qed.

(** X14. When the spider fails, [download] raises its exception after
    having made the destination directory, which stays behind, empty, and
    no request is made. *)
Theorem download_spider_failure dest_dir w w0 e :
  os_mkdir (Path dest_dir) w = (Ok tt, w0) →
  spider env = Raise e →
  download env dest_dir w
  = (Raise e, {| files := <[Path dest_dir := Dir]> (files w);
                 events := events w ++ [EvScrape] |}).
Proof.
  intros Hmk Hs. destruct (os_mkdir_Ok _ _ _ Hmk) as [Hnone ->].
  unfold download. cbv zeta.
  rewrite (bind_Ok _ _ _ _ _ (path_exists_run (Path dest_dir) w)), Hnone.
  rewrite bool_decide_eq_false_2 by by intros [? ?].
  rewrite (bind_Ok _ _ _ _ _ Hmk).
  apply bind_Raise. by rewrite scrape_run, Hs.
Qed.

(** X12. [download] cannot be run twice on a destination. Once the first
    run has made the directory, however it ends (the spider fails, a
    fetch fails, or all is written), a second run, with any spider and
    server, raises the [ClickException] and changes nothing. *)
Theorem download_not_repeatable (env2 : Env) dest_dir w w0 :
  os_mkdir (Path dest_dir) w = (Ok tt, w0) →
  download env2 dest_dir (download env dest_dir w).2
  = (Raise (ClickException
             ("destination directory '" ++ path_str (Path dest_dir)
              ++ "' already exists")%string),
     (download env dest_dir w).2).
Proof.
  intros Hmk. destruct (os_mkdir_Ok _ _ _ Hmk) as [Hnone Hw0].
  assert (Hdir : node_at (files w0) (Path dest_dir) = Some Dir).
  { apply node_at_None in Hnone as [Hroot _]. subst w0.
    rewrite node_at_not_root by done. apply lookup_insert_eq. }
  assert (Hafter : node_at (files (download env dest_dir w).2) (Path dest_dir)
                   = Some Dir).
  { unfold download. cbv zeta.
    rewrite (bind_Ok _ _ _ _ _ (path_exists_run (Path dest_dir) w)), Hnone.
    rewrite bool_decide_eq_false_2 by by intros [? ?].
    rewrite (bind_Ok _ _ _ _ _ Hmk).
    match goal with
    | |- node_at (files (?m w0).2) _ = _ =>
        assert (Hst : stable keeps_dirs m)
    end.
    { apply stable_bind; [apply _ | | intros docs].
      { unfold scrape_document_info.
        apply stable_bind; [apply _ | apply log_keeps_dirs | intros _].
        apply stable_lift, _. }
      apply stable_bind;
        [apply _ | apply download_documents_keeps_dirs | intros _].
      apply write_file_keeps_dirs. }
    by apply Hst. }
  unfold download at 1. cbv zeta.
  rewrite (bind_Ok _ _ _ _ _ (path_exists_run (Path dest_dir) _)), Hafter.
  by rewrite bool_decide_eq_true_2 by eauto.
Qed.

End DirectoryFacts.

(** ** What [status] prints *)

#[local] Instance silent_preorder : PreOrder silent.
Proof.
  split.
  - intros w. exists []. by rewrite app_nil_r.
  - intros w1 w2 w3 (evs1 & He1 & Hw1) (evs2 & He2 & Hw2).
    exists (evs1 ++ evs2). rewrite He2, He1, app_assoc. split; [done|].
    by apply Forall_app.
Qed.

Lemma silent_log ev : (∀ t, ev ≠ EvStdout t) → stable silent (log ev).
Proof. intros Hev w. exists [ev]. split; [done|]. by repeat constructor. Qed.

Lemma prints_last_echo text : prints_last (echo text).
Proof. intros w. simpl. exists [], text. by split. Qed.

Lemma prints_last_raise e : prints_last (raise e).
Proof. intros w. simpl. reflexivity. Qed.

Lemma prints_last_bind {A} (m : M A) (f : A → M unit) :
  stable silent m → (∀ x, prints_last (f x)) → prints_last (m ≫= f).
Proof.
  intros Hm Hf w. unfold mbind, M_bind. specialize (Hm w).
  destruct (m w) as [[x|e] w1]; simpl in Hm; [|done].
  specialize (Hf x w1). destruct (f x w1) as [[[]|e] w2].
  - destruct Hm as (evs1 & He1 & Hs1). destruct Hf as (evs & text & He & Hs).
    exists (evs1 ++ evs), text. rewrite He, He1, <- !app_assoc.
    split; [done|]. by apply Forall_app.
  - by etrans.
Qed.

Section StatusFacts.

Variable set_iter : gset string → list string.
Hypothesis set_iter_perm : ∀ s, set_iter s ≡ₚ elements s.
Variable env : Env.

Lemma silent_load_local_meta meta_path :
  stable silent (load_local_meta env meta_path).
Proof using Type.
  unfold load_local_meta.
  apply stable_bind; [apply _ | apply stable_path_exists, _ | intros found].
  destruct (negb found); [apply stable_ret, _|].
  apply stable_bind; [apply _ | | intros content].
  - unfold open_read.
    apply stable_bind; [apply _ | apply stable_get_files, _ | intros fs].
    destruct (node_at fs meta_path) as [[|c]|]; try apply stable_raise, _.
    apply stable_bind; [apply _ | by apply silent_log | intros _].
    apply stable_ret, _.
  - destruct (json_load env content); [apply stable_ret, _ | apply stable_raise, _].
Qed.

Lemma silent_scrape : stable silent (scrape_document_info env).
Proof using Type.
  unfold scrape_document_info.
  apply stable_bind; [apply _ | by apply silent_log | intros _].
  apply stable_lift, _.
Qed.

(** X15. [status] prints exactly once, as the last thing it does, when it
    returns, and prints nothing when it raises. *)
Theorem status_prints_once data_dir fmt w :
  match status set_iter env data_dir fmt w with
  | (Ok _, w') =>
      ∃ evs text, events w' = events w ++ evs ++ [EvStdout text]
        ∧ Forall (fun ev => ∀ t, ev ≠ EvStdout t) evs
  | (Raise _, w') =>
      ∃ evs, events w' = events w ++ evs
        ∧ Forall (fun ev => ∀ t, ev ≠ EvStdout t) evs
  end.
Proof using Type.
  revert w. change (prints_last (status set_iter env data_dir fmt)).
  unfold status. cbv zeta.
  apply prints_last_bind; [apply silent_load_local_meta | intros local_meta].
  apply prints_last_bind; [apply silent_scrape | intros scraped_info].
  apply prints_last_bind; [|intros local_info].
  { destruct (meta_document_info local_meta);
      [apply stable_ret, _ | apply stable_raise, _]. }
  apply prints_last_bind; [apply stable_lift, _ | intros doc_diff].
  destruct fmt; apply prints_last_echo.
Qed.

(** The steps of a [status] that returns. *)
Lemma status_Ok_inv data_dir fmt w w' :
  status set_iter env data_dir fmt w = (Ok tt, w') →
  ∃ local_meta w1 scraped local_info doc_diff,
    load_local_meta env (path_join (Path data_dir) "meta.json") w
    = (Ok local_meta, w1)
    ∧ spider env = Ok scraped
    ∧ meta_document_info local_meta = Some local_info
    ∧ get_diff set_iter scraped local_info = Ok doc_diff
    ∧ w' = {| files := files w1;
              events := (events w1 ++ [EvScrape])
                ++ [EvStdout match fmt with
                             | Json => pformat env doc_diff
                             | Summary => summary_text local_meta doc_diff
                             end] |}.
Proof using Type.
  unfold status. cbv zeta. intros H.
  apply bind_inv in H as [(local_meta & w1 & Hload & H)|(e & _ & ?)]; [|done].
  apply bind_inv in H as [(scraped & w2 & Hs & H)|(e & _ & ?)]; [|done].
  rewrite scrape_run in Hs. injection Hs as Hs <-.
  apply bind_inv in H as [(local_info & w3 & Hinfo & H)|(e & _ & ?)]; [|done].
  destruct (meta_document_info local_meta) as [docs|] eqn:Hdocs; [|done].
  injection Hinfo as <- <-.
  apply bind_inv in H as [(doc_diff & w4 & Hdiff & H)|(e & _ & ?)]; [|done].
  unfold lift in Hdiff. injection Hdiff as Hdiff <-.
  exists local_meta, w1, scraped, docs, doc_diff.
  split_and!; try done. destruct fmt; by injection H as <-.
Qed.

(** X16. Whenever [status] prints its summary, the summary says
    "Removed: 0": the count of removed documents is never anything else. *)
Theorem status_summary_removed_zero data_dir w w' :
  status set_iter env data_dir Summary w = (Ok tt, w') →
  ∃ (last_updated : string) (n u : nat),
    last (events w')
    = Some (EvStdout ("Last updated: " ++ last_updated ++ newline
                      ++ "New: " ++ pretty n
                      ++ ", Removed: 0, Updated: " ++ pretty u)%string).
Proof.
  intros Hrun.
  destruct (status_Ok_inv _ _ _ _ Hrun)
    as (local_meta & w1 & scraped & local_info & doc_diff
        & _ & _ & _ & Hdiff & ->).
  destruct (get_diff_Ok_inv set_iter set_iter_perm _ _ _ Hdiff)
    as (_ & Hrem & _ & _).
  exists (default "never"%string (meta_updated local_meta)),
         (length (new doc_diff)), (length (updated doc_diff)).
  simpl. rewrite last_snoc. unfold summary_text. rewrite Hrem. reflexivity.
Qed.

(** X19. When the local manifest lists a [file_path] that the spider no
    longer reports, [status] does not report it as removed: it raises
    [KeyError] on such a [file_path], after the spider has run, and prints
    nothing. *)
Theorem status_local_only_record_raises
    data_dir fmt w content local_meta local_info scraped :
  let meta_path := path_join (Path data_dir) "meta.json" in
  node_at (files w) meta_path = Some (File content) →
  json_load env content = Some local_meta →
  meta_document_info local_meta = Some local_info →
  spider env = Ok scraped →
  ¬ (∀ k, k ∈ file_path <$> local_info → k ∈ file_path <$> scraped) →
  ∃ k, k ∈ file_path <$> local_info ∧ (k ∉ file_path <$> scraped)
    ∧ status set_iter env data_dir fmt w
      = (Raise (KeyError k),
         {| files := files w;
            events := (events w ++ [EvOpen meta_path ReadText]) ++ [EvScrape] |}).
Proof using Type.
  intros meta_path Hp Hj Hinfo Hs Hsub.
  destruct (get_diff_raises set_iter scraped local_info Hsub)
    as (k & Hdiff & Hk & Hnk).
  exists k. split_and!; [done | done |].
  unfold status. cbv zeta. fold meta_path.
  erewrite bind_Ok
    by (rewrite (load_local_meta_present _ _ _ _ Hp), Hj; reflexivity).
  erewrite bind_Ok by (rewrite scrape_run, Hs; reflexivity).
  rewrite Hinfo. erewrite bind_Ok by reflexivity.
  apply bind_Raise. unfold lift. by rewrite Hdiff.
Qed.

(** X18. A [status] run on the directory that a [download] has just
    filled, with the spider reporting the same records and a [json] that
    decodes what it encodes, reports no change: it reads back the
    manifest, runs the spider, and prints the time of the download with
    zero new, removed and updated documents. *)
Theorem download_then_status_no_change dest_dir w w' docs :
  download env dest_dir w = (Ok tt, w') →
  spider env = Ok docs →
  json_load env (json_dump env (manifest env docs)) = Some (manifest env docs) →
  status set_iter env dest_dir Summary w'
  = (Ok tt,
     {| files := files w';
        events := events w'
          ++ [EvOpen (path_join (Path dest_dir) "meta.json") ReadText;
              EvScrape;
              EvStdout ("Last updated: " ++ now_isoformat env ++ newline
                        ++ "New: 0, Removed: 0, Updated: 0")%string] |}).
Proof.
  intros Hrun Hs Hjson.
  destruct (download_Ok_after_documents _ _ _ _ Hrun)
    as (w0 & docs' & w3 & _ & Hs' & _ & Hroot & Hw').
  assert (docs' = docs) by congruence. subst docs'.
  set (meta_path := path_join (Path dest_dir) "meta.json") in *.
  assert (Hp : node_at (files w') meta_path
               = Some (File (json_dump env (manifest env docs)))).
  { rewrite Hw', node_at_not_root by done. simpl. apply lookup_insert_eq. }
  unfold status. cbv zeta. fold meta_path.
  erewrite bind_Ok
    by (rewrite (load_local_meta_present _ _ _ _ Hp), Hjson; reflexivity).
  erewrite bind_Ok by (rewrite scrape_run, Hs; reflexivity).
  cbn [manifest meta_document_info]. erewrite bind_Ok by reflexivity.
  erewrite bind_Ok
    by (unfold lift; rewrite (get_diff_self set_iter set_iter_perm); reflexivity).
  unfold echo, log, summary_text. simpl. by rewrite <- !app_assoc.
Qed.

End StatusFacts.

(** ** Examples of the further properties *)

Lemma elements_enumerates : ∀ s : gset string, elements s ≡ₚ elements s.
Proof. intros s. reflexivity. Defined.

Lemma get_diff_returns_or_raises_witness :
  (∀ s : gset string, elements s ≡ₚ elements s)
  ∧ ∃ k, KeyError "b.pdf" = KeyError k
      ∧ k ∈ file_path <$> [doc_a_old; doc_b] ∧ k ∉ file_path <$> [doc_a_new].
Proof.
  split; [exact elements_enumerates|].
  pose proof (get_diff_returns_or_raises elements elements_enumerates
                [doc_a_new] [doc_a_old; doc_b]) as H.
  assert (Heq : get_diff elements [doc_a_new] [doc_a_old; doc_b]
                = Raise (KeyError "b.pdf")) by reflexivity.
  rewrite Heq in H. exact H.
Defined.

Lemma get_diff_removed_nil_witness :
  (∀ s : gset string, elements s ≡ₚ elements s)
  ∧ get_diff elements [doc_a_new; doc_b] [doc_a_old]
    = Ok {| new := [doc_b]; removed := []; updated := [doc_a_new] |}
  ∧ removed {| new := [doc_b]; removed := []; updated := [doc_a_new] |} = [].
Proof.
  split; [exact elements_enumerates|].
  split; [vm_compute; reflexivity|].
  apply (get_diff_removed_nil elements elements_enumerates
           [doc_a_new; doc_b] [doc_a_old]).
  vm_compute. reflexivity.
Defined.

Lemma get_diff_updated_witness :
  doc_a_new ∈ [doc_a_new] ↔
    ∃ l, dict_get "a.pdf" (docs_by_path [doc_a_old]) = Some l
       ∧ dict_get "a.pdf" (docs_by_path [doc_a_new; doc_b]) = Some doc_a_new
       ∧ str_gt "2020-06-01" (publication_date l) = true.
Proof.
  apply (get_diff_updated elements elements_enumerates
           [doc_a_new; doc_b] [doc_a_old]
           {| new := [doc_b]; removed := []; updated := [doc_a_new] |}
           doc_a_new).
  vm_compute. reflexivity.
Defined.

Lemma get_diff_new_records_witness :
  NoDup (file_path <$> [doc_b])
  ∧ ∀ r, r ∈ [doc_b] ↔
      dict_get (file_path r) (docs_by_path [doc_a_new; doc_b]) = Some r
      ∧ file_path r ∉ file_path <$> [doc_a_old].
Proof.
  apply (get_diff_new_records elements elements_enumerates
           [doc_a_new; doc_b] [doc_a_old]
           {| new := [doc_b]; removed := []; updated := [doc_a_new] |}).
  vm_compute. reflexivity.
Defined.

Lemma get_diff_new_updated_disjoint_witness :
  file_path doc_b ≠ file_path doc_a_new.
Proof.
  apply (get_diff_new_updated_disjoint elements elements_enumerates
           [doc_a_new; doc_b] [doc_a_old]
           {| new := [doc_b]; removed := []; updated := [doc_a_new] |}).
  - vm_compute. reflexivity.
  - apply list_elem_of_here.
  - apply list_elem_of_here.
Defined.

Lemma get_diff_updated_one_direction_witness :
  file_path doc_a_new ≠ file_path doc_b.
Proof.
  apply (get_diff_updated_one_direction elements elements_enumerates
           [doc_a_new; doc_b_older] [doc_a_old; doc_b]
           {| new := []; removed := []; updated := [doc_a_new] |}
           {| new := []; removed := []; updated := [doc_b] |}).
  - vm_compute. reflexivity.
  - vm_compute. reflexivity.
  - apply list_elem_of_here.
  - apply list_elem_of_here.
Defined.

Lemma download_documents_stops_at_first_failure_witness :
  download_documents (sample_env []) [doc_a_new; doc_b; doc_meta] ["dest"]
    dest_world
  = (Raise (URLError "https://example.org/b.pdf"),
     {| files := <[ ["dest"; "a.pdf"] :=
                      File "content of https://example.org/a.pdf" ]>
                   {[ ["dest"] := Dir ]};
        events := [EvUrlopen "https://example.org/a.pdf";
                   EvOpen ["dest"; "a.pdf"] WriteBinary;
                   EvUrlopen "https://example.org/b.pdf"] |}).
Proof.
  apply (download_documents_stops_at_first_failure (sample_env [])
           [doc_a_new] doc_b [doc_meta] ["dest"] dest_world
           {| files := <[ ["dest"; "a.pdf"] :=
                            File "content of https://example.org/a.pdf" ]>
                         {[ ["dest"] := Dir ]};
              events := [EvUrlopen "https://example.org/a.pdf";
                         EvOpen ["dest"; "a.pdf"] WriteBinary] |}).
  - vm_compute. reflexivity.
  - vm_compute. reflexivity.
Defined.

Lemma download_trace_witness :
  ∃ docs,
    spider (sample_env [doc_a_new; doc_meta]) = Ok docs
    ∧ events (download (sample_env [doc_a_new; doc_meta]) "dest" empty_world).2
      = [] ++ [EvScrape] ++ flat_map (doc_events (Path "dest")) docs
        ++ [EvOpen (path_join (Path "dest") "meta.json") WriteText].
Proof.
  apply (download_trace (sample_env [doc_a_new; doc_meta]) "dest" empty_world).
  vm_compute. reflexivity.
Defined.



Lemma download_keeps_directories_witness :
  node_at (files (download (sample_env [doc_a_new]) "dest" (data_world "")).2)
    ["data"]
  = Some Dir.
Proof.
  apply (download_keeps_directories (sample_env [doc_a_new]) "dest"
           (data_world "") ["data"]).
  vm_compute. reflexivity.
Defined.

Lemma download_not_repeatable_witness :
  download (sample_env [doc_a_new]) "dest"
    (download failing_env "dest" empty_world).2
  = (Raise (ClickException "destination directory 'dest' already exists"),
     (download failing_env "dest" empty_world).2).
Proof.
  apply (download_not_repeatable failing_env (sample_env [doc_a_new]) "dest"
           empty_world dest_world).
  vm_compute. reflexivity.
Defined.

Lemma download_missing_parent_witness :
  ∃ e, os_error e
    ∧ download (sample_env [doc_a_new]) "missing/dest" empty_world
      = (Raise e, empty_world).
Proof.
  apply (download_missing_parent (sample_env [doc_a_new]) "missing/dest"
           empty_world).
  - vm_compute. reflexivity.
  - intros H. vm_compute in H. discriminate H.
Defined.

Lemma download_spider_failure_witness :
  download failing_env "dest" empty_world
  = (Raise (ScrapeError "No module named 'scrapy'"),
     {| files := <[ Path "dest" := Dir ]> (files empty_world);
        events := events empty_world ++ [EvScrape] |}).
Proof.
  apply (download_spider_failure failing_env "dest" empty_world dest_world).
  - vm_compute. reflexivity.
  - reflexivity.
Defined.

Lemma status_summary_removed_zero_witness :
  (∀ s : gset string, elements s ≡ₚ elements s)
  ∧ ∃ (last_updated : string) (n u : nat),
      last (events (status elements (sample_env [doc_a_new; doc_b]) "data"
                      Summary
                      (data_world (sample_json_dump sample_meta))).2)
      = Some (EvStdout ("Last updated: " ++ last_updated ++ newline
                        ++ "New: " ++ pretty n
                        ++ ", Removed: 0, Updated: " ++ pretty u)%string).
Proof.
  split; [exact elements_enumerates|].
  apply (status_summary_removed_zero elements elements_enumerates
           (sample_env [doc_a_new; doc_b]) "data"
           (data_world (sample_json_dump sample_meta))).
  vm_compute. reflexivity.
Defined.

Lemma status_missing_document_info_witness :
  status elements (bare_env [doc_a_new]) "data" Summary (data_world "{}")
  = (Raise (KeyError "document_info"),
     {| files := files (data_world "{}");
        events := [EvOpen ["data"; "meta.json"] ReadText; EvScrape] |}).
Proof.
  apply (status_missing_document_info elements (bare_env [doc_a_new]) "data"
           Summary (data_world "{}") "{}"%string
           {| meta_description := None; meta_updated := None;
              meta_document_info := None |} [doc_a_new]).
  - vm_compute. reflexivity.
  - reflexivity.
  - reflexivity.
  - reflexivity.
Defined.

Lemma download_then_status_no_change_witness :
  (∀ s : gset string, elements s ≡ₚ elements s)
  ∧ status elements (reading_env [doc_a_new]) "dest" Summary
      (download (reading_env [doc_a_new]) "dest" empty_world).2
    = (Ok tt,
       {| files := files (download (reading_env [doc_a_new]) "dest"
                            empty_world).2;
          events := events (download (reading_env [doc_a_new]) "dest"
                              empty_world).2
            ++ [EvOpen (path_join (Path "dest") "meta.json") ReadText;
                EvScrape;
                EvStdout ("Last updated: 2021-03-01T12:00:00" ++ newline
                          ++ "New: 0, Removed: 0, Updated: 0")%string] |}).
Proof.
  split; [exact elements_enumerates|].
  apply (download_then_status_no_change elements elements_enumerates
           (reading_env [doc_a_new]) "dest" empty_world _ [doc_a_new]).
  - vm_compute. reflexivity.
  - reflexivity.
  - vm_compute. reflexivity.
Defined.

Lemma status_local_only_record_raises_witness :
  ∃ k, k ∈ file_path <$> [doc_a_old] ∧ (k ∉ file_path <$> [doc_b])
    ∧ status elements (sample_env [doc_b]) "data" Summary
        (data_world (sample_json_dump sample_meta))
      = (Raise (KeyError k),
         {| files := files (data_world (sample_json_dump sample_meta));
            events := ([] ++ [EvOpen (path_join (Path "data") "meta.json")
                                ReadText]) ++ [EvScrape] |}).
Proof.
  apply (status_local_only_record_raises elements (sample_env [doc_b]) "data"
           Summary (data_world (sample_json_dump sample_meta))
           (sample_json_dump sample_meta) sample_meta [doc_a_old] [doc_b]).
  - vm_compute. reflexivity.
  - vm_compute. reflexivity.
  - reflexivity.
  - reflexivity.
  - intros H. specialize (H "a.pdf"%string (list_elem_of_here _ _)).
    apply list_elem_of_singleton in H. discriminate H.
Defined.
